(** * Offline pupil detection orchestrator

    A shallow embedding of [Offline_Pupil_Detection] from
    [pupil_src/shared_modules/pupil_producers.py]: the plugin that starts one
    eye process per eye video, drains the detection results from the
    message bus into a pupil data store, publishes the store once both eyes
    are done, and persists it together with a small metadata object.

    The Python object is a record of its attributes; every method is a
    computation in a state-and-exception monad over that record.  Whatever
    the plugin does to the outside world (notifications, the shared
    [g_pool.pupil_positions] slot, announcements, files, the subscription
    socket) is appended, in program order, to a trace.

    Not modelled: logging, the menu and timelines of [Pupil_Producer_Base],
    the creation of [offline_data], and the lookup table that a [VideoSet]
    may cache next to the video.  Ints are [Z]; floats (timestamps, the
    progress) are rationals, so the quotient in the progress is exact. *)

From Stdlib Require Import ZArith QArith Qminmax List String Ascii Bool Lia DecimalString.
Import ListNotations.

Open Scope string_scope.
Open Scope Z_scope.

(* ================================================================== *)
(** ** Python values used by the plugin *)

Module Py.

(** Exceptions the modelled code can raise. *)
Inductive exn :=
| AssertionError
| IndexError
| KeyError
| ValueError
| FileNotFoundError
| AttributeError.

Inductive result (A : Type) :=
| Ok (a : A)
| Raise (e : exn).
Arguments Ok {A} a.
Arguments Raise {A} e.

(** [l[i]] for a Python list: indices [0 .. len-1] and, counted from the
    end, [-len .. -1]; anything else is an [IndexError]. *)
Definition index (len : nat) (i : Z) : option nat :=
  if (0 <=? i) && (i <? Z.of_nat len) then Some (Z.to_nat i)
  else if (- Z.of_nat len <=? i) && (i <? 0) then Some (Z.to_nat (Z.of_nat len + i))
  else None.

Definition getitem {A} (l : list A) (i : Z) : option A :=
  match index (List.length l) i with
  | Some n => nth_error l n
  | None => None
  end.

Fixpoint replace_nth {A} (l : list A) (n : nat) (v : A) : list A :=
  match l, n with
  | [], _ => []
  | _ :: r, O => v :: r
  | x :: r, S m => x :: replace_nth r m v
  end.

Definition setitem {A} (l : list A) (i : Z) (v : A) : option (list A) :=
  match index (List.length l) i with
  | Some n => Some (replace_nth l n v)
  | None => None
  end.

(** [str(i)] for an [int], as ["{}".format(i)] prints it. *)
Definition str_of_int (i : Z) : string := NilZero.string_of_int (Z.to_int i).

(** [int(c)] for a one-character string. *)
Definition int_of_char (c : ascii) : option Z :=
  let n := Z.of_nat (nat_of_ascii c) in
  if (48 <=? n) && (n <=? 57) then Some (n - 48) else None.

(** [s[-1]]. *)
Fixpoint last_char (s : string) : option ascii :=
  match s with
  | EmptyString => None
  | String c EmptyString => Some c
  | String _ r => last_char r
  end.

Fixpoint ends_with_slash (s : string) : bool :=
  match s with
  | EmptyString => false
  | String c EmptyString => Ascii.eqb c "/"
  | String _ r => ends_with_slash r
  end.

(** [os.path.join(a, b)] on POSIX. *)
Definition path_join (a b : string) : string :=
  if String.prefix "/" b then b
  else if String.eqb a "" || ends_with_slash a then a ++ b
  else a ++ "/" ++ b.

End Py.
Import Py.

(* ================================================================== *)
(** ** Data model *)

(** A deserialised pupil datum ([fm.Serialized_Dict]): the keys the plugin
    and the store read, and the remaining numeric fields. *)
Record pupil_datum := {
  datum_id : Z;
  datum_timestamp : Q;
  datum_tag : string;
  datum_fields : list (string * Q)
}.

(** The persisted metadata object: a dict with the three keys that
    [save_offline_data] writes; [None] is an absent key. *)
Record session_meta := {
  meta_version : option Z;
  meta_detection_method : option string;
  meta_detection_status : option (list string)
}.

(** Notifications the plugin sends with [notify_all], by subject. *)
Inductive notification :=
| eye_process_should_start (eye_id : Z) (source_path : string)
| eye_process_should_stop (eye_id : Z)
| file_source_seek (frame_index : Z) (source_path : string)
| file_source_should_pause (source_path : string)
| file_source_should_play (source_path : string)
| set_detection_mapping_mode_n (mode : string).

(** A notification as received: the subject and the keys the plugin reads
    for it.  A [source_path], when present, is a string. *)
Record notification_in := {
  subject : string;
  n_source_path : option string;
  n_eye_id : option Z
}.

(** A message drained from [data_sub]: its topic and its payload frame. *)
Inductive payload :=
| Datum (d : pupil_datum)
| Notification (n : notification_in).

Record message := {
  topic : string;
  frame : payload
}.

(* ------------------------------------------------------------------ *)
(** *** The pupil data store *)

Module PupilDataBisector.

(** What [append(topic, datum, timestamp)] is given. *)
Record entry := {
  e_topic : string;
  e_datum : pupil_datum;
  e_timestamp : Q
}.

(** Modelled from the spec: [pm.PupilDataBisector] (player_methods) is
    not part of the sources.  The store is one sequence of records kept
    ascending by timestamp; a record's key is its eye id and detector
    tag. *)
Definition t := list entry.

Definition empty : t := [].

(** Modelled from the spec: [append] inserts in timestamp position, after
    the records that are not later than the new one. *)
Fixpoint insert (e : entry) (st : t) : t :=
  match st with
  | [] => [e]
  | x :: r =>
      if Qle_bool (e_timestamp x) (e_timestamp e) then x :: insert e r
      else e :: x :: r
  end.

Definition append (tp : string) (d : pupil_datum) (ts : Q) (st : t) : t :=
  insert {| e_topic := tp; e_datum := d; e_timestamp := ts |} st.

(** Modelled from the spec: [clear] empties the store, [copy] is an
    independent snapshot (a value here). *)
Definition clear (st : t) : t := empty.
Definition copy (st : t) : t := st.

(** Modelled from the spec: [store[eye, tag]]; [eye = None] is the slice
    [:], all eyes. *)
Definition has_key (eye : option Z) (tag : string) (e : entry) : bool :=
  match eye with
  | Some i => (datum_id (e_datum e) =? i) && String.eqb (datum_tag (e_datum e)) tag
  | None => String.eqb (datum_tag (e_datum e)) tag
  end.

(** Modelled from the spec: the records of one key, in store order. *)
Definition select (eye : option Z) (tag : string) (st : t) : t :=
  filter (has_key eye tag) st.

(** [len(...)] *)
Definition len (st : t) : Z := Z.of_nat (List.length st).

End PupilDataBisector.

Definition store : Type := PupilDataBisector.t.

(* ------------------------------------------------------------------ *)
(** *** Effects and the recording on disk *)

Inductive event :=
| Notify (n : notification)                        (* notify_all(n) *)
| SetPupilPositions (snapshot : store)             (* g_pool.pupil_positions = ... *)
| AnnounceNew                                      (* _pupil_changed_announcer.announce_new() *)
| SaveToFile (dir name : string) (snapshot : store)  (* store.save_to_file(dir, name) *)
| SaveObject (obj : session_meta) (path : string)  (* fm.save_object(obj, path) *)
| CloseDataSub.                                    (* data_sub = None: the socket is closed *)

(** What the plugin reads from the recording directory.  The video set
    built for an eye is a function of the video file found for it. *)
Record recording := {
  rec_dir : string;
  path_exists : string -> bool;
  videoset_is_empty : string -> bool;
  n_valid_frames : string -> Z;
  meta_file : option session_meta;
  store_file : store
}.

(** The attributes of an [Offline_Pupil_Detection] instance, the shared
    [g_pool.pupil_positions] slot and the trace of effects. *)
Record orchestrator := {
  pupil_positions : option store;
  data_sub : bool;
  detection_method : string;
  detection_status : list string;
  _pupil_data_store : store;
  eye_video_loc : list (option string);
  eye_frame_num : list Z;
  _detection_paused : bool;
  detection_finished_flag : option bool;
  videoset : option string;
  indicator_stop : Q;
  trace : list event
}.

Definition session_data_version : Z := 3.
Definition session_data_name : string := "offline_pupil".

Definition data_dir (fs : recording) : string :=
  path_join (rec_dir fs) "offline_data".

(* ================================================================== *)
(** ** The state-and-exception monad *)

Definition M (A : Type) : Type := orchestrator -> result A * orchestrator.

Definition ret {A} (a : A) : M A := fun s => (Ok a, s).

Definition bind {A B} (c : M A) (k : A -> M B) : M B :=
  fun s =>
    match c s with
    | (Ok a, s') => k a s'
    | (Raise e, s') => (Raise e, s')
    end.

Definition raise {A} (e : exn) : M A := fun s => (Raise e, s).

Definition gets {A} (f : orchestrator -> A) : M A := fun s => (Ok (f s), s).

Definition modify (f : orchestrator -> orchestrator) : M unit :=
  fun s => (Ok tt, f s).

Declare Scope monad_scope.
Delimit Scope monad_scope with monad.
Notation "x <- c ;; k" := (bind c (fun x => k))
  (at level 61, c at next level, right associativity) : monad_scope.
Notation "c ;; k" := (bind c (fun _ => k))
  (at level 61, right associativity) : monad_scope.
Open Scope monad_scope.

(** An optional value, or the exception Python raises in its place. *)
Definition or_raise {A} (e : exn) (o : option A) : M A :=
  match o with
  | Some a => ret a
  | None => raise e
  end.

(** [assert b]. *)
Definition assert (b : bool) : M unit :=
  if b then ret tt else raise AssertionError.

(** [try: c  except (AssertionError, FileNotFoundError): h] *)
Definition try_except {A} (c : M A) (h : M A) : M A :=
  fun s =>
    match c s with
    | (Raise AssertionError, s') => h s'
    | (Raise FileNotFoundError, s') => h s'
    | r => r
    end.

(** [for x in xs: body(x)] without [break]. *)
Fixpoint for_each {A} (xs : list A) (body : A -> M unit) : M unit :=
  match xs with
  | [] => ret tt
  | x :: r => body x ;; for_each r body
  end.

(* ------------------------------------------------------------------ *)
(** *** Attribute updates *)

Definition set_pupil_positions (v : option store) (s : orchestrator) : orchestrator :=
  let (pp, sub, dm, ds, st, evl, efn, dp, dff, vs, ind, tr) := s in
  {| pupil_positions := v; data_sub := sub; detection_method := dm;
     detection_status := ds; _pupil_data_store := st; eye_video_loc := evl;
     eye_frame_num := efn; _detection_paused := dp;
     detection_finished_flag := dff; videoset := vs; indicator_stop := ind; trace := tr |}.

Definition set_data_sub (v : bool) (s : orchestrator) : orchestrator :=
  let (pp, sub, dm, ds, st, evl, efn, dp, dff, vs, ind, tr) := s in
  {| pupil_positions := pp; data_sub := v; detection_method := dm;
     detection_status := ds; _pupil_data_store := st; eye_video_loc := evl;
     eye_frame_num := efn; _detection_paused := dp;
     detection_finished_flag := dff; videoset := vs; indicator_stop := ind; trace := tr |}.

Definition set_detection_method (v : string) (s : orchestrator) : orchestrator :=
  let (pp, sub, dm, ds, st, evl, efn, dp, dff, vs, ind, tr) := s in
  {| pupil_positions := pp; data_sub := sub; detection_method := v;
     detection_status := ds; _pupil_data_store := st; eye_video_loc := evl;
     eye_frame_num := efn; _detection_paused := dp;
     detection_finished_flag := dff; videoset := vs; indicator_stop := ind; trace := tr |}.

Definition set_detection_status (v : list string) (s : orchestrator) : orchestrator :=
  let (pp, sub, dm, ds, st, evl, efn, dp, dff, vs, ind, tr) := s in
  {| pupil_positions := pp; data_sub := sub; detection_method := dm;
     detection_status := v; _pupil_data_store := st; eye_video_loc := evl;
     eye_frame_num := efn; _detection_paused := dp;
     detection_finished_flag := dff; videoset := vs; indicator_stop := ind; trace := tr |}.

Definition set_pupil_data_store (v : store) (s : orchestrator) : orchestrator :=
  let (pp, sub, dm, ds, st, evl, efn, dp, dff, vs, ind, tr) := s in
  {| pupil_positions := pp; data_sub := sub; detection_method := dm;
     detection_status := ds; _pupil_data_store := v; eye_video_loc := evl;
     eye_frame_num := efn; _detection_paused := dp;
     detection_finished_flag := dff; videoset := vs; indicator_stop := ind; trace := tr |}.

Definition set_eye_video_loc (v : list (option string)) (s : orchestrator) : orchestrator :=
  let (pp, sub, dm, ds, st, evl, efn, dp, dff, vs, ind, tr) := s in
  {| pupil_positions := pp; data_sub := sub; detection_method := dm;
     detection_status := ds; _pupil_data_store := st; eye_video_loc := v;
     eye_frame_num := efn; _detection_paused := dp;
     detection_finished_flag := dff; videoset := vs; indicator_stop := ind; trace := tr |}.

Definition set_eye_frame_num (v : list Z) (s : orchestrator) : orchestrator :=
  let (pp, sub, dm, ds, st, evl, efn, dp, dff, vs, ind, tr) := s in
  {| pupil_positions := pp; data_sub := sub; detection_method := dm;
     detection_status := ds; _pupil_data_store := st; eye_video_loc := evl;
     eye_frame_num := v; _detection_paused := dp; detection_finished_flag :=
     dff; videoset := vs; indicator_stop := ind; trace := tr |}.

Definition set__detection_paused (v : bool) (s : orchestrator) : orchestrator :=
  let (pp, sub, dm, ds, st, evl, efn, dp, dff, vs, ind, tr) := s in
  {| pupil_positions := pp; data_sub := sub; detection_method := dm;
     detection_status := ds; _pupil_data_store := st; eye_video_loc := evl;
     eye_frame_num := efn; _detection_paused := v; detection_finished_flag :=
     dff; videoset := vs; indicator_stop := ind; trace := tr |}.

Definition set_detection_finished_flag (v : option bool) (s : orchestrator) : orchestrator :=
  let (pp, sub, dm, ds, st, evl, efn, dp, dff, vs, ind, tr) := s in
  {| pupil_positions := pp; data_sub := sub; detection_method := dm;
     detection_status := ds; _pupil_data_store := st; eye_video_loc := evl;
     eye_frame_num := efn; _detection_paused := dp;
     detection_finished_flag := v; videoset := vs; indicator_stop := ind; trace := tr |}.

Definition set_videoset (v : option string) (s : orchestrator) : orchestrator :=
  let (pp, sub, dm, ds, st, evl, efn, dp, dff, vs, ind, tr) := s in
  {| pupil_positions := pp; data_sub := sub; detection_method := dm;
     detection_status := ds; _pupil_data_store := st; eye_video_loc := evl;
     eye_frame_num := efn; _detection_paused := dp;
     detection_finished_flag := dff; videoset := v; indicator_stop := ind; trace := tr |}.

Definition set_indicator_stop (v : Q) (s : orchestrator) : orchestrator :=
  let (pp, sub, dm, ds, st, evl, efn, dp, dff, vs, ind, tr) := s in
  {| pupil_positions := pp; data_sub := sub; detection_method := dm;
     detection_status := ds; _pupil_data_store := st; eye_video_loc := evl;
     eye_frame_num := efn; _detection_paused := dp;
     detection_finished_flag := dff; videoset := vs; indicator_stop := v; trace := tr |}.

Definition set_trace (v : list event) (s : orchestrator) : orchestrator :=
  let (pp, sub, dm, ds, st, evl, efn, dp, dff, vs, ind, tr) := s in
  {| pupil_positions := pp; data_sub := sub; detection_method := dm;
     detection_status := ds; _pupil_data_store := st; eye_video_loc := evl;
     eye_frame_num := efn; _detection_paused := dp;
     detection_finished_flag := dff; videoset := vs; indicator_stop := ind; trace := v |}.

(** One effect on the outside world. *)
Definition emit (e : event) : M unit :=
  modify (fun s => set_trace (trace s ++ [e])%list s).

(** [self.attr[i] = v] on a list attribute. *)
Definition assign_item {A} (get : orchestrator -> list A)
    (set : list A -> orchestrator -> orchestrator) (i : Z) (v : A) : M unit :=
  l <- gets get ;;
  l' <- or_raise IndexError (setitem l i v) ;;
  modify (set l').

(** [self.attr[i]] on a list attribute. *)
Definition read_item {A} (get : orchestrator -> list A) (i : Z) : M A :=
  l <- gets get ;;
  or_raise IndexError (getitem l i).

(* ================================================================== *)
(** ** The methods of [Offline_Pupil_Detection] *)

Import PupilDataBisector.

Definition notify_all (n : notification) : M unit := emit (Notify n).

(** [g_pool.pupil_positions = snapshot] *)
Definition publish (snapshot : store) : M unit :=
  modify (set_pupil_positions (Some snapshot)) ;;
  emit (SetPupilPositions snapshot).

(** [os.path.join(rec_dir, "eye{}{}".format(eye_id, ext))] *)
Definition candidate (fs : recording) (eye_id : Z) (ext : string) : string :=
  path_join (rec_dir fs) ("eye" ++ str_of_int eye_id ++ ext).

Definition potential_locs (fs : recording) (eye_id : Z) : list string :=
  map (candidate fs eye_id) [".mjpeg"; ".mp4"; ".mkv"].

Definition existing_locs (fs : recording) (eye_id : Z) : list string :=
  filter (path_exists fs) (potential_locs fs eye_id).

(** [self.videoset] records which video the set was built from; its
    [is_empty()] and the number of valid frames are read off the
    recording. *)
Definition start_eye_process (fs : recording) (eye_id : Z) : M unit :=
  match existing_locs fs eye_id with
  | [] =>
      assign_item detection_status set_detection_status eye_id "No eye video found."
  | loc0 :: _ =>
      modify (set_videoset (Some loc0)) ;;
      if videoset_is_empty fs loc0 then
        assign_item detection_status set_detection_status eye_id "No eye video found."
      else
        let video_loc := loc0 in
        assign_item eye_frame_num set_eye_frame_num eye_id (n_valid_frames fs loc0) ;;
        notify_all (eye_process_should_start eye_id video_loc) ;;
        assign_item eye_video_loc set_eye_video_loc eye_id (Some video_loc) ;;
        assign_item detection_status set_detection_status eye_id "Detecting..."
  end.

(** [sum(l)] *)
Definition sum (l : list Z) : Z := fold_left Z.add l 0.

(** [min(x, 1.0)]: the second argument replaces the first only when it is
    strictly smaller. *)
Definition min_1 (x : Q) : Q := if Qle_bool x 1 then x else 1%Q.

(** The property [detection_progress].  Python divides two [int]s into a
    [float]; the quotient is kept exact here, as a rational. *)
Definition detection_progress (s : orchestrator) : Q :=
  let total := sum (eye_frame_num s) in
  if negb (total =? 0) then
    min_1 (inject_Z (len (select None (detection_method s) (_pupil_data_store s)))
           / inject_Z total)%Q
  else 0%Q.

Definition stop_eye_process (eye_id : Z) : M unit :=
  notify_all (eye_process_should_stop eye_id) ;;
  assign_item eye_video_loc set_eye_video_loc eye_id None.

Definition save_offline_data (fs : recording) : M unit :=
  st <- gets _pupil_data_store ;;
  emit (SaveToFile (data_dir fs) "offline_pupil" st) ;;
  method <- gets detection_method ;;
  status <- gets detection_status ;;
  let session_data :=
    {| meta_version := Some session_data_version;
       meta_detection_method := Some method;
       meta_detection_status := Some status |} in
  let cache_path := path_join (data_dir fs) "offline_pupil.meta" in
  emit (SaveObject session_data cache_path).

Definition correlate_publish (fs : recording) : M unit :=
  st <- gets _pupil_data_store ;;
  publish (copy st) ;;
  emit AnnounceNew ;;
  save_offline_data fs.

Definition loc_eqb (a b : option string) : bool :=
  match a, b with
  | Some x, Some y => String.eqb x y
  | None, None => true
  | _, _ => false
  end.

Fixpoint locs_eqb (a b : list (option string)) : bool :=
  match a, b with
  | [], [] => true
  | x :: a', y :: b' => loc_eqb x y && locs_eqb a' b'
  | _, _ => false
  end.

(** [for eyeid in ids: if self.eye_video_loc[eyeid] == payload["source_path"]:
    ...; break] *)
Fixpoint mark_finished (ids : list Z) (payload : notification_in) : M unit :=
  match ids with
  | [] => ret tt
  | eyeid :: rest =>
      loc <- read_item eye_video_loc eyeid ;;
      source_path <- or_raise KeyError (n_source_path payload) ;;
      if loc_eqb loc (Some source_path) then
        assign_item detection_status set_detection_status eyeid "complete" ;;
        stop_eye_process eyeid
      else mark_finished rest payload
  end.

(** The body of the [while self.data_sub.new_data] loop, for one message. *)
Definition handle_message (fs : recording) (m : message) : M unit :=
  if String.prefix "pupil." (topic m) then
    c <- or_raise IndexError (last_char (topic m)) ;;
    eye <- or_raise ValueError (int_of_char c) ;;
    pupil_datum <- match frame m with
                   | Datum d => ret d
                   | Notification _ => raise KeyError
                   end ;;
    assert (eye =? datum_id pupil_datum) ;;
    let timestamp := datum_timestamp pupil_datum in
    modify (fun s => set_pupil_data_store
                       (append (topic m) pupil_datum timestamp (_pupil_data_store s)) s)
  else
    payload <- match frame m with
               | Notification n => ret n
               | Datum _ => raise KeyError
               end ;;
    if String.eqb (subject payload) "file_source.video_finished" then
      mark_finished [0; 1] payload ;;
      locs <- gets eye_video_loc ;;
      if locs_eqb locs [None; None] then correlate_publish fs else ret tt
    else ret tt.

(** [recent_events], given the messages available on [data_sub] at the
    call.  ([super().recent_events] only fills [events].) *)
Definition recent_events (fs : recording) (pending : list message) : M unit :=
  sub <- gets data_sub ;;
  (if sub : bool then ret tt else raise AttributeError) ;;
  for_each pending (handle_message fs) ;;
  modify (fun s => set_indicator_stop (detection_progress s) s).

(** The setter of the property [detection_paused]. *)
Definition set_detection_paused (should_pause : bool) : M unit :=
  modify (set__detection_paused should_pause) ;;
  for_each [0; 1] (fun eye_id =>
    loc <- read_item eye_video_loc eye_id ;;
    match loc with
    | Some p =>
        notify_all (if should_pause then file_source_should_pause p
                    else file_source_should_play p)
    | None => ret tt
    end).

Definition redetect (fs : recording) : M unit :=
  modify (fun s => set_pupil_data_store (clear (_pupil_data_store s)) s) ;;
  st <- gets _pupil_data_store ;;
  publish (copy st) ;;
  emit AnnounceNew ;;
  modify (set_detection_finished_flag (Some false)) ;;
  set_detection_paused false ;;
  for_each [0; 1] (fun eye_id =>
    loc <- read_item eye_video_loc eye_id ;;
    match loc with
    | None => start_eye_process fs eye_id
    | Some p => notify_all (file_source_seek 0 p)
    end).

Definition set_detection_mapping_mode (fs : recording) (new_mode : string) : M unit :=
  notify_all (set_detection_mapping_mode_n new_mode) ;;
  redetect fs ;;
  modify (set_detection_method new_mode).

(** [on_notify].  The base classes are not part of the sources; their
    [on_notify] is taken to do nothing. *)
Definition on_notify (fs : recording) (n : notification_in) : M unit :=
  if String.eqb (subject n) "eye_process.started" then
    method <- gets detection_method ;;
    set_detection_mapping_mode fs method
  else if String.eqb (subject n) "eye_process.stopped" then
    eye_id <- or_raise KeyError (n_eye_id n) ;;
    assign_item eye_video_loc set_eye_video_loc eye_id None
  else ret tt.

(** [self.data_sub = None] *)
Definition close_data_sub : M unit :=
  modify (set_data_sub false) ;;
  emit CloseDataSub.

Definition cleanup (fs : recording) : M unit :=
  stop_eye_process 0 ;;
  stop_eye_process 1 ;;
  close_data_sub ;;
  save_offline_data fs.

(* ------------------------------------------------------------------ *)
(** *** Construction *)

Definition default_session_meta_data : session_meta :=
  {| meta_version := None;
     meta_detection_method := None;
     meta_detection_status := Some ["unknown"; "unknown"] |}.

Definition version_eqb (v : option Z) (n : Z) : bool :=
  match v with
  | Some x => x =? n
  | None => false
  end.

(** The [try ... except (AssertionError, FileNotFoundError)] block. *)
Definition load_session_meta_data (fs : recording) : M session_meta :=
  try_except
    (session_meta_data <- or_raise FileNotFoundError (meta_file fs) ;;
     assert (version_eqb (meta_version session_meta_data) session_data_version) ;;
     ret session_meta_data)
    (ret default_session_meta_data).

(** The attributes before [__init__] has run. *)
Definition blank : orchestrator :=
  {| pupil_positions := None; data_sub := false; detection_method := "";
     detection_status := []; _pupil_data_store := empty; eye_video_loc := [];
     eye_frame_num := []; _detection_paused := false;
     detection_finished_flag := None; videoset := None;
     indicator_stop := 0%Q; trace := [] |}.

(** [__init__] up to the start of the eye processes. *)
Definition init_attributes (fs : recording) : M unit :=
  modify (set_data_sub true) ;;
  loaded <- load_session_meta_data fs ;;
  let session_meta_data :=
    {| meta_version := meta_version loaded;
       meta_detection_method := Some "3d";
       meta_detection_status := meta_detection_status loaded |} in
  method <- or_raise KeyError (meta_detection_method session_meta_data) ;;
  modify (set_detection_method method) ;;
  status <- or_raise KeyError (meta_detection_status session_meta_data) ;;
  modify (set_detection_status status) ;;
  modify (set_pupil_data_store (store_file fs)) ;;
  modify (set_eye_video_loc [None; None]) ;;
  modify (set_eye_frame_num [0; 0]) ;;
  st <- gets _pupil_data_store ;;
  assign_item eye_frame_num set_eye_frame_num 0 (len (select (Some 0) method st)) ;;
  assign_item eye_frame_num set_eye_frame_num 1 (len (select (Some 1) method st)) ;;
  set_detection_paused false.

(** [__init__] through the loop that starts the eye processes. *)
Definition startup (fs : recording) : M unit :=
  init_attributes fs ;;
  for_each [0; 1] (fun eye_id =>
    status <- read_item detection_status eye_id ;;
    if negb (String.eqb status "complete") then start_eye_process fs eye_id
    else ret tt).

Definition init (fs : recording) : M unit :=
  startup fs ;;
  locs <- gets eye_video_loc ;;
  if locs_eqb locs [None; None] then correlate_publish fs else ret tt.

(* ================================================================== *)
(** ** Well-formed states and sample recordings *)

(** The per-eye lists hold one entry for each of the two eyes. *)
Definition well_formed (s : orchestrator) : Prop :=
  List.length (detection_status s) = 2%nat /\
  List.length (eye_video_loc s) = 2%nat /\
  List.length (eye_frame_num s) = 2%nat.

Definition is_eye (eye_id : Z) : Prop := eye_id = 0 \/ eye_id = 1.

Definition no_candidate_exists (fs : recording) (eye_id : Z) : Prop :=
  forall ext, In ext [".mjpeg"; ".mp4"; ".mkv"] ->
    path_exists fs (candidate fs eye_id ext) = false.

(** The first existing candidate is a video set without frames. *)
Definition found_video_is_empty (fs : recording) (eye_id : Z) : Prop :=
  exists loc0, hd_error (existing_locs fs eye_id) = Some loc0 /\
               videoset_is_empty fs loc0 = true.

Ltac two_elements l H :=
  destruct l as [|? [|? [|? ?]]]; simpl in H; try discriminate H.

Ltac open_state s H :=
  destruct s as [pp sub dm ds st evl efn dp dff vs ind tr];
  destruct H as (Hds & Hevl & Hefn); simpl in Hds, Hevl, Hefn;
  two_elements ds Hds; two_elements evl Hevl; two_elements efn Hefn.

(* ------------------------------------------------------------------ *)
(** *** Sample recordings, states and messages *)

Module Sample.

Definition is_one_of (names : list string) (p : string) : bool :=
  existsb (String.eqb p) names.

Definition datum (eye : Z) (ts : Q) : pupil_datum :=
  {| datum_id := eye; datum_timestamp := ts; datum_tag := "3d";
     datum_fields := [("confidence", 1%Q)] |}.

Definition stored (eye : Z) (ts : Q) : entry :=
  {| e_topic := "pupil." ++ str_of_int eye; e_datum := datum eye ts; e_timestamp := ts |}.

(** A recording with both eye videos and no earlier session. *)
Definition fs_both : recording :=
  {| rec_dir := "/rec";
     path_exists := is_one_of ["/rec/eye0.mp4"; "/rec/eye1.mp4"];
     videoset_is_empty := fun _ => false;
     n_valid_frames := fun p => if String.eqb p "/rec/eye0.mp4" then 100 else 200;
     meta_file := None;
     store_file := [] |}.

(** A mono recording: only eye 0 has a video. *)
Definition fs_mono : recording :=
  {| rec_dir := "/rec";
     path_exists := is_one_of ["/rec/eye0.mp4"];
     videoset_is_empty := fun _ => false;
     n_valid_frames := fun _ => 100;
     meta_file := None;
     store_file := [] |}.

(** A recording without eye videos. *)
Definition fs_none : recording :=
  {| rec_dir := "/rec";
     path_exists := fun _ => false;
     videoset_is_empty := fun _ => false;
     n_valid_frames := fun _ => 0;
     meta_file := None;
     store_file := [] |}.

(** A recording whose eye 1 video has no frames. *)
Definition fs_empty_eye1 : recording :=
  {| rec_dir := "/rec";
     path_exists := is_one_of ["/rec/eye0.mp4"; "/rec/eye1.mkv"];
     videoset_is_empty := String.eqb "/rec/eye1.mkv";
     n_valid_frames := fun p => if String.eqb p "/rec/eye0.mp4" then 100 else 0;
     meta_file := None;
     store_file := [] |}.

(** A recording whose detection was completed in an earlier session: two
    results are on disk. *)
Definition fs_done : recording :=
  {| rec_dir := "/rec";
     path_exists := is_one_of ["/rec/eye0.mp4"; "/rec/eye1.mp4"];
     videoset_is_empty := fun _ => false;
     n_valid_frames := fun _ => 1;
     meta_file := Some {| meta_version := Some 3;
                          meta_detection_method := Some "3d";
                          meta_detection_status := Some ["complete"; "complete"] |};
     store_file := [stored 0 (1#2); stored 1 (3#4)] |}.

(** A recording with metadata of an older version. *)
Definition fs_old_version : recording :=
  {| rec_dir := "/rec";
     path_exists := fun _ => false;
     videoset_is_empty := fun _ => false;
     n_valid_frames := fun _ => 0;
     meta_file := Some {| meta_version := Some 2;
                          meta_detection_method := Some "2d";
                          meta_detection_status := Some ["complete"; "complete"] |};
     store_file := [] |}.

(** The plugin while both eye processes are detecting. *)
Definition s_detecting : orchestrator :=
  {| pupil_positions := None; data_sub := true; detection_method := "3d";
     detection_status := ["Detecting..."; "Detecting..."];
     _pupil_data_store := [stored 0 (1#2)];
     eye_video_loc := [Some "/rec/eye0.mp4"; Some "/rec/eye1.mp4"];
     eye_frame_num := [100; 200]; _detection_paused := false;
     detection_finished_flag := None; videoset := Some "/rec/eye1.mp4";
     indicator_stop := 0%Q; trace := [] |}.

(** The plugin after both eyes have finished. *)
Definition s_finished : orchestrator :=
  {| pupil_positions := Some [stored 0 (1#2)]; data_sub := true;
     detection_method := "3d";
     detection_status := ["complete"; "complete"];
     _pupil_data_store := [stored 0 (1#2)];
     eye_video_loc := [None; None];
     eye_frame_num := [100; 200]; _detection_paused := false;
     detection_finished_flag := None; videoset := Some "/rec/eye1.mp4";
     indicator_stop := 0%Q; trace := [] |}.

(** Both eyes detecting, with status entries that no run of the plugin
    writes next to a recorded source. *)
Definition s_stale : orchestrator :=
  set_detection_status ["unknown"; "complete"] s_detecting.

(** Eye 0 still detecting, eye 1 without a video. *)
Definition s_mono : orchestrator :=
  {| pupil_positions := None; data_sub := true; detection_method := "3d";
     detection_status := ["Detecting..."; "No eye video found."];
     _pupil_data_store := [stored 0 (1#2)];
     eye_video_loc := [Some "/rec/eye0.mp4"; None];
     eye_frame_num := [100; 0]; _detection_paused := false;
     detection_finished_flag := None; videoset := Some "/rec/eye0.mp4";
     indicator_stop := 0%Q; trace := [] |}.

(** More results stored than frames expected. *)
Definition s_overfull : orchestrator :=
  {| pupil_positions := None; data_sub := true; detection_method := "3d";
     detection_status := ["Detecting..."; "Detecting..."];
     _pupil_data_store := [stored 0 (1#2); stored 1 (1#2); stored 0 (3#4)];
     eye_video_loc := [Some "/rec/eye0.mp4"; Some "/rec/eye1.mp4"];
     eye_frame_num := [1; 1]; _detection_paused := false;
     detection_finished_flag := None; videoset := Some "/rec/eye1.mp4";
     indicator_stop := 0%Q; trace := [] |}.

End Sample.

(* ------------------------------------------------------------------ *)
(** *** What [redetect] does for one eye, read off the recording *)

(** The video [start_eye_process] settles on: the first existing candidate,
    unless its video set has no frames. *)
Definition found_video (fs : recording) (eye_id : Z) : option string :=
  match existing_locs fs eye_id with
  | [] => None
  | loc0 :: _ => if videoset_is_empty fs loc0 then None else Some loc0
  end.

(** The requests sent by the setter of [detection_paused] when it is set to
    [False]: one per eye that has a source. *)
Definition play_requests (locs : list (option string)) : list event :=
  flat_map (fun loc => match loc with
                       | Some p => [Notify (file_source_should_play p)]
                       | None => []
                       end) locs.

(** The request one eye gets when detection is restarted: a seek to frame
    0 on its source, or the start of its process if it has none and a
    video is found. *)
Definition restart_request (fs : recording) (locs : list (option string))
    (eye_id : Z) : list event :=
  match getitem locs eye_id with
  | Some (Some p) => [Notify (file_source_seek 0 p)]
  | Some None =>
      match found_video fs eye_id with
      | Some v => [Notify (eye_process_should_start eye_id v)]
      | None => []
      end
  | None => []
  end.

(** The state of one eye after a restart, given its state before. *)
Definition restarted_eye (fs : recording) (eye_id : Z)
    (before after : orchestrator) : Prop :=
  match getitem (eye_video_loc before) eye_id with
  | Some (Some p) =>
      getitem (eye_video_loc after) eye_id = Some (Some p) /\
      getitem (detection_status after) eye_id =
        getitem (detection_status before) eye_id /\
      getitem (eye_frame_num after) eye_id =
        getitem (eye_frame_num before) eye_id
  | _ =>
      match found_video fs eye_id with
      | Some v =>
          getitem (eye_video_loc after) eye_id = Some (Some v) /\
          getitem (detection_status after) eye_id = Some "Detecting..." /\
          getitem (eye_frame_num after) eye_id = Some (n_valid_frames fs v)
      | None =>
          getitem (eye_video_loc after) eye_id = Some None /\
          getitem (detection_status after) eye_id = Some "No eye video found." /\
          getitem (eye_frame_num after) eye_id =
            getitem (eye_frame_num before) eye_id
      end
  end.

(* ------------------------------------------------------------------ *)
(** *** Messages and the effects of one publication *)

(** The message a file source sends when its video has ended. *)
Definition video_finished (source_path : string) : message :=
  {| topic := "notify.file_source.video_finished";
     frame := Notification {| subject := "file_source.video_finished";
                              n_source_path := Some source_path;
                              n_eye_id := None |} |}.

(** The notification an eye process sends when it has stopped. *)
Definition eye_process_stopped (eye_id : Z) : notification_in :=
  {| subject := "eye_process.stopped"; n_source_path := None;
     n_eye_id := Some eye_id |}.

(** What [save_offline_data] writes in state [s]. *)
Definition saved (fs : recording) (s : orchestrator) : list event :=
  [SaveToFile (data_dir fs) "offline_pupil" (_pupil_data_store s);
   SaveObject {| meta_version := Some session_data_version;
                 meta_detection_method := Some (detection_method s);
                 meta_detection_status := Some (detection_status s) |}
              (path_join (data_dir fs) "offline_pupil.meta")].

(** The effects of one run of [correlate_publish] in state [s]. *)
Definition published (fs : recording) (s : orchestrator) : list event :=
  SetPupilPositions (_pupil_data_store s) :: AnnounceNew :: saved fs s.

Definition is_save_object (e : event) : bool :=
  match e with
  | SaveObject _ _ => true
  | _ => false
  end.

(** How often a trace persists the metadata.  While messages are drained
    only [correlate_publish] does so, once per run. *)
Definition publications (tr : list event) : nat :=
  List.length (filter is_save_object tr).

Definition is_close (e : event) : bool :=
  match e with
  | CloseDataSub => true
  | _ => false
  end.

Definition is_save (e : event) : bool :=
  match e with
  | SaveToFile _ _ _ | SaveObject _ _ => true
  | _ => false
  end.

(** Every [a]-event of the trace comes before every [b]-event. *)
Fixpoint all_before (a b : event -> bool) (tr : list event) : bool :=
  match tr with
  | [] => true
  | e :: r => (if b e then negb (existsb a r) else true) && all_before a b r
  end.

Arguments existing_locs : simpl never.
Arguments publications : simpl never.

(** Evaluation of a run, as far as the symbolic parts allow. *)
Ltac run :=
  cbn; repeat (progress change (Pos.to_nat 1) with 1%nat; cbn).

Ltac unfold_methods :=
  unfold redetect, set_detection_mapping_mode, set_detection_paused,
    start_eye_process, stop_eye_process, correlate_publish, save_offline_data,
    close_data_sub, publish, notify_all, assign_item, read_item, emit, bind,
    gets, modify, or_raise, ret, raise.

(* ------------------------------------------------------------------ *)
(** *** The plugin as a whole: calls, consistency, persistence *)


(** The calls the host and the menu make on a constructed plugin. *)
Inductive call :=
| Recent_events (pending : list message)
| On_notify (n : notification_in)
| Redetect
| Set_detection_mapping_mode (new_mode : string)
| Set_detection_paused (should_pause : bool)
| Cleanup.

Definition run_call (fs : recording) (c : call) : M unit :=
  match c with
  | Recent_events pending => recent_events fs pending
  | On_notify n => on_notify fs n
  | Redetect => redetect fs
  | Set_detection_mapping_mode new_mode => set_detection_mapping_mode fs new_mode
  | Set_detection_paused should_pause => set_detection_paused should_pause
  | Cleanup => cleanup fs
  end.

(** A sequence of calls; an exception ends the plugin's life with the
    state it was raised in. *)
Fixpoint run_calls (fs : recording) (cs : list call) (s : orchestrator)
    : orchestrator :=
  match cs with
  | [] => s
  | c :: r =>
      match run_call fs c s with
      | (Ok _, s') => run_calls fs r s'
      | (Raise _, s') => s'
      end
  end.

(** An eye with a recorded source is being detected. *)
Definition source_is_detecting (s : orchestrator) : Prop :=
  forall e p, is_eye e ->
    getitem (eye_video_loc s) e = Some (Some p) ->
    getitem (detection_status s) e = Some "Detecting...".

Definition consistent (s : orchestrator) : Prop :=
  well_formed s /\ source_is_detecting s.

(** The status list [__init__] works with: the persisted one if the
    metadata has the current version, the default one otherwise. *)
Definition loaded_status (fs : recording) : option (list string) :=
  match meta_file fs with
  | Some m =>
      if version_eqb (meta_version m) session_data_version
      then meta_detection_status m
      else Some ["unknown"; "unknown"]
  | None => Some ["unknown"; "unknown"]
  end.

(** The request [__init__] sends for one eye, given its loaded status. *)
Definition start_request (fs : recording) (status : string) (eye_id : Z)
    : list event :=
  if String.eqb status "complete" then []
  else match found_video fs eye_id with
       | Some v => [Notify (eye_process_should_start eye_id v)]
       | None => []
       end.

(** The status of one eye after [__init__], given its loaded status. *)
Definition started_status (fs : recording) (status : string) (eye_id : Z)
    : string :=
  if String.eqb status "complete" then "complete"
  else match found_video fs eye_id with
       | Some _ => "Detecting..."
       | None => "No eye video found."
       end.

(** The source path of one eye after [__init__]. *)
Definition started_loc (fs : recording) (status : string) (eye_id : Z)
    : option string :=
  if String.eqb status "complete" then None else found_video fs eye_id.

(** Where [__init__] looks for the metadata. *)
Definition meta_path (fs : recording) : string :=
  path_join (data_dir fs) (session_data_name ++ ".meta").

(** Modelled from the spec: [fm.save_object], [fm.load_object] and the
    store's [save_to_file], [load_from_file] are not part of the sources.
    A file reads back what was last written to its path; the two files the
    plugin loads are the metadata at [meta_path] and the store saved under
    [session_data_name] in [data_dir]. *)
Definition write_event (fs : recording) (e : event) : recording :=
  match e with
  | SaveObject obj path =>
      if String.eqb path (meta_path fs)
      then {| rec_dir := rec_dir fs; path_exists := path_exists fs;
              videoset_is_empty := videoset_is_empty fs;
              n_valid_frames := n_valid_frames fs;
              meta_file := Some obj; store_file := store_file fs |}
      else fs
  | SaveToFile dir name snapshot =>
      if String.eqb dir (data_dir fs) && String.eqb name session_data_name
      then {| rec_dir := rec_dir fs; path_exists := path_exists fs;
              videoset_is_empty := videoset_is_empty fs;
              n_valid_frames := n_valid_frames fs;
              meta_file := meta_file fs; store_file := snapshot |}
      else fs
  | _ => fs
  end.

(** The recording after the saves of a trace. *)
Definition written (tr : list event) (fs : recording) : recording :=
  fold_left write_event tr fs.

Definition is_notify (e : event) : bool :=
  match e with
  | Notify _ => true
  | _ => false
  end.

(** Stores reached from [st] by appending. *)
Inductive extends (st : store) : store -> Prop :=
| extends_refl : extends st st
| extends_append tp d ts st' :
    extends st st' -> extends st (append tp d ts st').

(** One eye of a consistent plugin: a source only with "Detecting...". *)
Definition eye_ok (loc : option string) (status : string) : Prop :=
  loc <> None -> status = "Detecting...".

(* ------------------------------------------------------------------ *)
(** *** Saying which attributes a run changes *)

Inductive attribute :=
| A_pupil_positions
| A_data_sub
| A_detection_method
| A_detection_status
| A_pupil_data_store
| A_eye_video_loc
| A_eye_frame_num
| A_detection_paused
| A_detection_finished_flag
| A_videoset
| A_indicator_stop
| A_trace.

(** Attribute [a] has the same value in [s'] as in [s]. *)
Definition same_attribute (a : attribute) (s s' : orchestrator) : Prop :=
  match a with
  | A_pupil_positions => pupil_positions s' = pupil_positions s
  | A_data_sub => data_sub s' = data_sub s
  | A_detection_method => detection_method s' = detection_method s
  | A_detection_status => detection_status s' = detection_status s
  | A_pupil_data_store => _pupil_data_store s' = _pupil_data_store s
  | A_eye_video_loc => eye_video_loc s' = eye_video_loc s
  | A_eye_frame_num => eye_frame_num s' = eye_frame_num s
  | A_detection_paused => _detection_paused s' = _detection_paused s
  | A_detection_finished_flag =>
      detection_finished_flag s' = detection_finished_flag s
  | A_videoset => videoset s' = videoset s
  | A_indicator_stop => indicator_stop s' = indicator_stop s
  | A_trace => trace s' = trace s
  end.

(** From [s] to [s'] no attribute outside [changed] has changed. *)
Definition only_changes (changed : list attribute) (s s' : orchestrator) : Prop :=
  forall a, ~ In a changed -> same_attribute a s s'.

(** The candidate [start_eye_process] settles on when several exist. *)
Definition preferred_candidate (fs : recording) (eye_id : Z) : option string :=
  if path_exists fs (candidate fs eye_id ".mjpeg")
  then Some (candidate fs eye_id ".mjpeg")
  else if path_exists fs (candidate fs eye_id ".mp4")
  then Some (candidate fs eye_id ".mp4")
  else if path_exists fs (candidate fs eye_id ".mkv")
  then Some (candidate fs eye_id ".mkv")
  else None.

(** Both eyes detecting, but with the per-eye list of source paths lost:
    reading an entry of it raises. *)
Definition s_without_paths : orchestrator :=
  {| pupil_positions := None; data_sub := true; detection_method := "3d";
     detection_status := ["Detecting..."; "Detecting..."];
     _pupil_data_store := [];
     eye_video_loc := [];
     eye_frame_num := [100; 200]; _detection_paused := false;
     detection_finished_flag := None; videoset := None;
     indicator_stop := 0%Q; trace := [] |}.

(** Closes [only_changes] between two explicit states. *)
Ltac solve_only_changes :=
  let a := fresh "a" in
  let Ha := fresh "Ha" in
  intros a Ha; destruct a; try reflexivity; exfalso; apply Ha; cbn; tauto.

(** Case analysis on whatever a run on an arbitrary state depends on,
    innermost first. *)
Ltac by_cases :=
  repeat (cbn -[setitem getitem String.eqb String.prefix] in *;
          match goal with
          | |- context [match ?x with _ => _ end] =>
              lazymatch x with
              | context [match _ with _ => _ end] => fail
              | _ => let E := fresh "E" in destruct x eqn:E
              end
          end).

(* ================================================================== *)
(** * Properties *)

(** ** Starting an eye process *)

Lemma no_candidate_existing_locs (fs : recording) (eye_id : Z) :
  no_candidate_exists fs eye_id -> existing_locs fs eye_id = [].
Proof.
  intros H. unfold existing_locs, potential_locs. cbn [map filter].
  rewrite !H by (simpl; auto). reflexivity.
Qed.

Lemma index_lt (len : nat) (i : Z) (n : nat) :
  index len i = Some n -> (n < len)%nat.
Proof.
  unfold index.
  destruct ((0 <=? i) && (i <? Z.of_nat len)) eqn:E1.
  - intros [= <-]. apply andb_prop in E1 as [H0 H1].
    apply Z.leb_le in H0. apply Z.ltb_lt in H1. lia.
  - destruct ((- Z.of_nat len <=? i) && (i <? 0)) eqn:E2; [|discriminate].
    intros [= <-]. apply andb_prop in E2 as [H0 H1].
    apply Z.leb_le in H0. apply Z.ltb_lt in H1. lia.
Qed.

Lemma replace_nth_length {A} (l : list A) (n : nat) (v : A) :
  List.length (replace_nth l n v) = List.length l.
Proof.
  revert n. induction l as [|x r IH]; intros [|n]; simpl; auto.
Qed.

Lemma nth_error_replace_nth {A} (l : list A) (n : nat) (v : A) :
  (n < List.length l)%nat -> nth_error (replace_nth l n v) n = Some v.
Proof.
  revert n. induction l as [|x r IH]; intros [|n]; simpl; intros H;
    try lia; [reflexivity | apply IH; lia].
Qed.

(** Reading back the entry just assigned. *)
Lemma getitem_setitem {A} (l l' : list A) (i : Z) (v : A) :
  setitem l i v = Some l' -> getitem l' i = Some v.
Proof.
  unfold setitem, getitem.
  destruct (index (List.length l) i) as [n|] eqn:E; [|discriminate].
  intros [= <-]. rewrite replace_nth_length, E.
  apply nth_error_replace_nth. now apply index_lt in E.
Qed.

Lemma setitem_defined {A} (l : list A) (i : Z) (v : A) :
  getitem l i <> None -> exists l', setitem l i v = Some l'.
Proof.
  unfold setitem, getitem.
  destruct (index (List.length l) i) as [n|]; [eauto | congruence].
Qed.

(** C5. When no candidate video of an eye exists, or the video set found
    for it has no frames, [start_eye_process] returns normally with that
    eye's status set to "No eye video found."; it sends no notification
    (so no [eye_process.should_start]) and leaves the recorded source paths
    and the expected frame counts as they were.  This holds for every
    [eye_id] that indexes the status list, 0 and 1 in particular. *)
Theorem start_eye_process_no_video (fs : recording) (eye_id : Z) (s : orchestrator) :
  getitem (detection_status s) eye_id <> None ->
  no_candidate_exists fs eye_id \/ found_video_is_empty fs eye_id ->
  exists s',
    start_eye_process fs eye_id s = (Ok tt, s') /\
    getitem (detection_status s') eye_id = Some "No eye video found." /\
    trace s' = trace s /\
    eye_video_loc s' = eye_video_loc s /\
    eye_frame_num s' = eye_frame_num s.
Proof.
  intros Hidx Hcase.
  destruct (setitem_defined _ _ "No eye video found." Hidx) as (ds' & Hset).
  pose proof (getitem_setitem _ _ _ _ Hset) as Hget.
  assert (Hassign :
            forall s0, detection_status s0 = detection_status s ->
              assign_item detection_status set_detection_status eye_id
                "No eye video found." s0 = (Ok tt, set_detection_status ds' s0)).
  { intros s0 E. unfold assign_item, bind, gets, or_raise, ret, modify.
    rewrite E, Hset. reflexivity. }
  unfold start_eye_process.
  destruct Hcase as [Hnone | (loc0 & Hhd & Hempty)].
  - rewrite (no_candidate_existing_locs _ _ Hnone), (Hassign s eq_refl).
    exists (set_detection_status ds' s). destruct s; repeat split. exact Hget.
  - destruct (existing_locs fs eye_id) as [|l0 rest]; [discriminate Hhd|].
    injection Hhd as ->.
    unfold bind at 1, modify at 1. rewrite Hempty.
    rewrite (Hassign (set_videoset (Some loc0) s)) by (destruct s; reflexivity).
    exists (set_detection_status ds' (set_videoset (Some loc0) s)).
    destruct s; repeat split. exact Hget.
Qed.

(** C5 at eye 1 of a recording whose eye 1 video has no frames. *)
Lemma start_eye_process_no_video_witness :
  exists s',
    start_eye_process Sample.fs_empty_eye1 1 Sample.s_finished = (Ok tt, s') /\
    getitem (detection_status s') 1 = Some "No eye video found." /\
    trace s' = trace Sample.s_finished /\
    eye_video_loc s' = eye_video_loc Sample.s_finished /\
    eye_frame_num s' = eye_frame_num Sample.s_finished.
Proof.
  apply (start_eye_process_no_video Sample.fs_empty_eye1 1 Sample.s_finished).
  - discriminate.
  - right. exists "/rec/eye1.mkv". split; reflexivity.
Defined.

(* ------------------------------------------------------------------ *)
(** ** Ingestion of detection results *)

Lemma insert_In (e : entry) (st : store) : In e (insert e st).
Proof.
  induction st as [|x r IH]; simpl.
  - now left.
  - destruct (Qle_bool (e_timestamp x) (e_timestamp e)); simpl; auto.
Qed.

Lemma insert_length (e : entry) (st : store) :
  List.length (insert e st) = S (List.length st).
Proof.
  induction st as [|x r IH]; simpl; [reflexivity|].
  destruct (Qle_bool (e_timestamp x) (e_timestamp e)); simpl; congruence.
Qed.

Lemma insert_keeps (e x : entry) (st : store) : In x st -> In x (insert e st).
Proof.
  induction st as [|y r IH]; simpl; [tauto|].
  intros [Heq | H]; destruct (Qle_bool (e_timestamp y) (e_timestamp e));
    simpl; auto.
Qed.

(** C6. A drained message whose topic starts with "pupil." and ends in the
    eye digit [E], carrying the datum [d]: when [d]'s "id" differs from [E]
    the handler raises [AssertionError] with the plugin unchanged (nothing
    is appended), and the exception ends the whole drain; when they agree
    the store of the resulting state is the old store with the datum
    inserted under the message's topic and the datum's own timestamp (the
    new record is in it, every old record still is, and it is one longer),
    and no other attribute has changed. *)
Theorem pupil_message_id_check (fs : recording) (tp : string) (c : ascii)
    (E : Z) (d : pupil_datum) (rest : list message) (s : orchestrator) :
  String.prefix "pupil." tp = true ->
  last_char tp = Some c ->
  int_of_char c = Some E ->
  let m := {| topic := tp; frame := Datum d |} in
  let new := {| e_topic := tp; e_datum := d; e_timestamp := datum_timestamp d |} in
  (datum_id d <> E ->
     handle_message fs m s = (Raise AssertionError, s) /\
     (data_sub s = true ->
      recent_events fs (m :: rest) s = (Raise AssertionError, s))) /\
  (datum_id d = E ->
     exists s',
       handle_message fs m s = (Ok tt, s') /\
       _pupil_data_store s' = insert new (_pupil_data_store s) /\
       In new (_pupil_data_store s') /\
       (forall x, In x (_pupil_data_store s) -> In x (_pupil_data_store s')) /\
       List.length (_pupil_data_store s') = S (List.length (_pupil_data_store s)) /\
       only_changes [A_pupil_data_store] s s').
Proof.
  intros Hpre Hlast Hint m new.
  assert (Hrun : handle_message fs m s =
                 if E =? datum_id d
                 then (Ok tt, set_pupil_data_store (insert new (_pupil_data_store s)) s)
                 else (Raise AssertionError, s)).
  { unfold handle_message, m; cbn [topic frame]; rewrite Hpre, Hlast.
    unfold bind, or_raise, ret, raise, assert, modify, new. cbn beta iota.
    rewrite Hint. destruct (E =? datum_id d); reflexivity. }
  split; intros Hid.
  - assert (Hne : (E =? datum_id d) = false) by (apply Z.eqb_neq; congruence).
    rewrite Hne in Hrun. split; [exact Hrun|].
    intros Hsub. unfold recent_events, bind at 1 2. unfold gets at 1. rewrite Hsub.
    simpl. unfold bind at 1 2. fold m. rewrite Hrun. reflexivity.
  - assert (He : (E =? datum_id d) = true) by (apply Z.eqb_eq; congruence).
    rewrite He in Hrun.
    exists (set_pupil_data_store (insert new (_pupil_data_store s)) s).
    split; [exact Hrun|].
    destruct s as [pp sub dm ds st evl efn dp dff vs ind tr].
    cbn [set_pupil_data_store _pupil_data_store].
    split; [reflexivity|]. split; [apply insert_In|].
    split; [intros x; apply insert_keeps|]. split; [apply insert_length|].
    solve_only_changes.
Qed.

(** C6 at a datum of eye 0 arriving under the topic of eye 1, which is
    refused, and at a datum of eye 1 under the same topic, which is stored
    before the record that was there. *)
Lemma pupil_message_id_check_witness :
  let bad := {| topic := "pupil.1"; frame := Datum (Sample.datum 0 (1#4)) |} in
  let good := {| topic := "pupil.1"; frame := Datum (Sample.datum 1 (1#4)) |} in
  (handle_message Sample.fs_both bad Sample.s_detecting =
     (Raise AssertionError, Sample.s_detecting) /\
   recent_events Sample.fs_both [bad; video_finished "/rec/eye0.mp4"]
     Sample.s_detecting = (Raise AssertionError, Sample.s_detecting)) /\
  exists s',
    handle_message Sample.fs_both good Sample.s_detecting = (Ok tt, s') /\
    _pupil_data_store s' =
      [{| e_topic := "pupil.1"; e_datum := Sample.datum 1 (1#4);
          e_timestamp := 1#4 |};
       Sample.stored 0 (1#2)] /\
    only_changes [A_pupil_data_store] Sample.s_detecting s'.
Proof.
  split.
  - destruct (pupil_message_id_check Sample.fs_both "pupil.1" "1"%char 1
                (Sample.datum 0 (1#4)) [video_finished "/rec/eye0.mp4"]
                Sample.s_detecting eq_refl eq_refl eq_refl) as [Hbad _].
    destruct Hbad as [H1 H2]; [discriminate|].
    split; [exact H1 | exact (H2 eq_refl)].
  - destruct (pupil_message_id_check Sample.fs_both "pupil.1" "1"%char 1
                (Sample.datum 1 (1#4)) [] Sample.s_detecting
                eq_refl eq_refl eq_refl) as [_ Hgood].
    destruct (Hgood eq_refl) as (s' & Hrun & Hst & _ & _ & _ & Hsame).
    exists s'. split; [exact Hrun|]. split; [|exact Hsame].
    rewrite Hst. reflexivity.
Defined.

(* ------------------------------------------------------------------ *)
(** ** Progress *)

Lemma min_1_Qmin (x : Q) : min_1 x = Qmin x 1.
Proof.
  unfold min_1, Qmin, GenericMinMax.gmin.
  destruct (Qle_bool x 1) eqn:E; destruct (x ?= 1)%Q eqn:C; try reflexivity.
  - apply Qle_bool_iff in E. apply Qle_alt in E. exfalso. exact (E C).
  - assert (H : Qle_bool x 1 = true)
      by (apply Qle_bool_iff, Qle_alt; congruence).
    congruence.
  - assert (H : Qle_bool x 1 = true)
      by (apply Qle_bool_iff, Qle_alt; congruence).
    congruence.
Qed.

Lemma min_1_le (x : Q) : (min_1 x <= 1)%Q.
Proof.
  unfold min_1. destruct (Qle_bool x 1) eqn:E.
  - now apply Qle_bool_iff.
  - apply Qle_refl.
Qed.

(** C4. With [count] the number of stored records of the current detection
    method (both eyes) and [total] the sum of the expected frame counts:
    the progress is 0 when [total] is 0, otherwise it is the smaller of
    [count / total] and 1; it never exceeds 1, and it is 1 when more
    records than expected frames are stored. *)
Theorem detection_progress_clamped (s : orchestrator) :
  let count := len (select None (detection_method s) (_pupil_data_store s)) in
  let total := sum (eye_frame_num s) in
  (total = 0 -> detection_progress s = 0%Q) /\
  (total <> 0 ->
     detection_progress s = Qmin (inject_Z count / inject_Z total) 1) /\
  (detection_progress s <= 1)%Q /\
  (0 < total < count -> detection_progress s = 1%Q).
Proof.
  intros count total. unfold detection_progress. fold count total.
  repeat split.
  - intros ->. reflexivity.
  - intros H. apply Z.eqb_neq in H. rewrite H. simpl. apply min_1_Qmin.
  - destruct (total =? 0); simpl; [discriminate | apply min_1_le].
  - intros [Hpos Hlt].
    assert (H : (total =? 0) = false) by (apply Z.eqb_neq; lia).
    rewrite H. simpl. unfold min_1.
    destruct (Qle_bool (inject_Z count / inject_Z total) 1) eqn:E; [|reflexivity].
    exfalso. apply Qle_bool_iff in E.
    assert (Ht : (0 < inject_Z total)%Q) by (change 0%Q with (inject_Z 0); rewrite <- Zlt_Qlt; exact Hpos).
    apply (Qmult_le_compat_r _ _ (inject_Z total)) in E; [|now apply Qlt_le_weak].
    rewrite Qmult_1_l in E.
    unfold Qdiv in E. rewrite <- Qmult_assoc, (Qmult_comm (/ _)), Qmult_inv_r, Qmult_1_r in E.
    + rewrite <- Zle_Qle in E. lia.
    + intros H0. rewrite H0 in Ht. discriminate.
Qed.

(** C4 with three results for two expected frames, and with one result
    for three hundred. *)
Lemma detection_progress_clamped_witness :
  detection_progress Sample.s_overfull = 1%Q /\
  detection_progress Sample.s_finished = Qmin (1 # 300) 1.
Proof.
  split.
  - apply (detection_progress_clamped Sample.s_overfull). vm_compute. split; reflexivity.
  - apply (detection_progress_clamped Sample.s_finished). vm_compute. discriminate.
Defined.

(* ------------------------------------------------------------------ *)
(** ** Restarting detection *)

(** [redetect] on a well-formed state, in full: it returns normally, the
    store and the published snapshot are empty, the detection method is
    untouched, and the trace grows by the publication of the empty snapshot,
    the play requests of the [detection_paused] setter and one request per
    eye. *)
Lemma redetect_run (fs : recording) (s : orchestrator) :
  well_formed s ->
  exists s',
    redetect fs s = (Ok tt, s') /\
    _pupil_data_store s' = [] /\
    pupil_positions s' = Some [] /\
    _detection_paused s' = false /\
    detection_method s' = detection_method s /\
    trace s' = (trace s ++ [SetPupilPositions []; AnnounceNew]
                ++ play_requests (eye_video_loc s)
                ++ restart_request fs (eye_video_loc s) 0
                ++ restart_request fs (eye_video_loc s) 1)%list /\
    restarted_eye fs 0 s s' /\
    restarted_eye fs 1 s s' /\
    well_formed s'.
Proof.
  intros H. open_state s H.
  unfold restarted_eye, restart_request, found_video, well_formed.
  unfold_methods.
  destruct o as [p0|], o0 as [p1|]; cbn;
    try (destruct (existing_locs fs 0) as [|v0 r0]; cbn);
    try (destruct (existing_locs fs 1) as [|v1 r1]; cbn);
    try (destruct (videoset_is_empty fs v0); cbn);
    try (destruct (videoset_is_empty fs v1); cbn);
    eexists; (split; [reflexivity|]); cbn; rewrite <- ?app_assoc; repeat split.
Qed.

(** C2, as the code has it.  [redetect] clears the store, publishes the
    empty snapshot and announces it, sets [detection_paused] to [False]
    (a play request goes to each eye that has a source), and then, eye 0
    first, sends a seek to frame 0 to the source of an eye that has one, or
    starts the process of an eye that has none.  [redetect] itself never
    writes [detection_status]: an eye that is sought keeps its status, its
    source and its frame count; an eye that is started gets what
    [start_eye_process] gives it. *)
Theorem redetect_restarts_each_eye (fs : recording) (s : orchestrator) :
  well_formed s ->
  exists s',
    redetect fs s = (Ok tt, s') /\
    _pupil_data_store s' = [] /\
    pupil_positions s' = Some [] /\
    _detection_paused s' = false /\
    trace s' = (trace s ++ [SetPupilPositions []; AnnounceNew]
                ++ play_requests (eye_video_loc s)
                ++ restart_request fs (eye_video_loc s) 0
                ++ restart_request fs (eye_video_loc s) 1)%list /\
    restarted_eye fs 0 s s' /\
    restarted_eye fs 1 s s'.
Proof.
  intros H. destruct (redetect_run fs s H) as (s' & ? & ? & ? & ? & ? & ? & ? & ? & ?).
  exists s'. repeat split; assumption.
Qed.

(** C2 with eye 0 detecting and eye 1 without a source so far. *)
Lemma redetect_restarts_each_eye_witness :
  exists s',
    redetect Sample.fs_both Sample.s_mono = (Ok tt, s') /\
    _pupil_data_store s' = [] /\
    pupil_positions s' = Some [] /\
    _detection_paused s' = false /\
    trace s' = [SetPupilPositions []; AnnounceNew;
                Notify (file_source_should_play "/rec/eye0.mp4");
                Notify (file_source_seek 0 "/rec/eye0.mp4");
                Notify (eye_process_should_start 1 "/rec/eye1.mp4")] /\
    restarted_eye Sample.fs_both 0 Sample.s_mono s' /\
    restarted_eye Sample.fs_both 1 Sample.s_mono s'.
Proof.
  apply (redetect_restarts_each_eye Sample.fs_both Sample.s_mono).
  repeat split; reflexivity.
Defined.

(** C2, as stated, fails: no entry of [detection_status] is reset when both
    eyes have a source.  Two states that differ in [detection_status] only
    come out of [redetect] with their own, different, status lists. *)
Lemma redetect_keeps_detection_status :
  fst (redetect Sample.fs_both Sample.s_stale) = Ok tt /\
  detection_status (snd (redetect Sample.fs_both Sample.s_stale)) =
    ["unknown"; "complete"] /\
  fst (redetect Sample.fs_both Sample.s_detecting) = Ok tt /\
  detection_status (snd (redetect Sample.fs_both Sample.s_detecting)) =
    ["Detecting..."; "Detecting..."].
Proof. vm_compute. repeat split. Qed.



(* ------------------------------------------------------------------ *)
(** ** Teardown *)

(** C9, as the code has it.  [cleanup] asks both eye processes to stop,
    whatever their state, then gives up its subscription, and only then
    saves the store and the metadata. *)
Theorem cleanup_stops_closes_saves (fs : recording) (s : orchestrator) :
  List.length (eye_video_loc s) = 2%nat ->
  exists s',
    cleanup fs s = (Ok tt, s') /\
    trace s' = (trace s ++ [Notify (eye_process_should_stop 0);
                            Notify (eye_process_should_stop 1);
                            CloseDataSub] ++ saved fs s)%list /\
    eye_video_loc s' = [None; None] /\
    data_sub s' = false /\
    _pupil_data_store s' = _pupil_data_store s /\
    detection_status s' = detection_status s /\
    detection_method s' = detection_method s.
Proof.
  intros H. destruct s as [pp sub dm ds st evl efn dp dff vs ind tr].
  simpl in H. two_elements evl H.
  unfold cleanup. unfold_methods. cbn. rewrite <- !app_assoc.
  eexists; repeat split.
Qed.

(** C9 after both eyes have finished: the stop requests are sent all the
    same. *)
Lemma cleanup_stops_closes_saves_witness :
  exists s',
    cleanup Sample.fs_both Sample.s_finished = (Ok tt, s') /\
    trace s' = ([Notify (eye_process_should_stop 0);
                 Notify (eye_process_should_stop 1);
                 CloseDataSub] ++ saved Sample.fs_both Sample.s_finished)%list /\
    eye_video_loc s' = [None; None] /\
    data_sub s' = false /\
    _pupil_data_store s' = _pupil_data_store Sample.s_finished /\
    detection_status s' = detection_status Sample.s_finished /\
    detection_method s' = detection_method Sample.s_finished.
Proof.
  apply (cleanup_stops_closes_saves Sample.fs_both Sample.s_finished).
  reflexivity.
Defined.

(** C9, as stated, fails: in the trace of [cleanup] the subscription is
    closed before anything is saved, so it is not true that every save
    precedes the close. *)
Lemma cleanup_closes_before_saving :
  trace (snd (cleanup Sample.fs_both Sample.s_detecting)) =
    [Notify (eye_process_should_stop 0);
     Notify (eye_process_should_stop 1);
     CloseDataSub;
     SaveToFile "/rec/offline_data" "offline_pupil" [Sample.stored 0 (1#2)];
     SaveObject {| meta_version := Some 3;
                   meta_detection_method := Some "3d";
                   meta_detection_status := Some ["Detecting..."; "Detecting..."] |}
                "/rec/offline_data/offline_pupil.meta"] /\
  all_before is_save is_close
    (trace (snd (cleanup Sample.fs_both Sample.s_detecting))) = false /\
  all_before is_close is_save
    (trace (snd (cleanup Sample.fs_both Sample.s_detecting))) = true.
Proof. vm_compute. repeat split. Qed.

Lemma publications_app (a b : list event) :
  publications (a ++ b) = (publications a + publications b)%nat.
Proof. unfold publications. now rewrite filter_app, length_app. Qed.

(* ------------------------------------------------------------------ *)
(** ** Notifications *)






(* ------------------------------------------------------------------ *)
(** ** Loading the session metadata *)

(** C8. When the metadata file is missing, or its "version" is absent or
    not the current one, the loaded metadata is the default object whatever
    the file held: no version, no detection method, and the status
    ["unknown", "unknown"]. *)
Theorem load_session_meta_data_reset (fs : recording) (s : orchestrator) :
  (meta_file fs = None \/
   exists m, meta_file fs = Some m /\ meta_version m <> Some session_data_version) ->
  load_session_meta_data fs s = (Ok default_session_meta_data, s) /\
  meta_detection_method default_session_meta_data = None /\
  meta_detection_status default_session_meta_data = Some ["unknown"; "unknown"] /\
  meta_version default_session_meta_data = None.
Proof.
  intros H. split; [|repeat split].
  unfold load_session_meta_data, try_except, bind, or_raise, assert, ret, raise.
  destruct H as [-> | (m & -> & Hv)]; [reflexivity|].
  destruct (version_eqb (meta_version m) session_data_version) eqn:E; [|reflexivity].
  exfalso. apply Hv. unfold version_eqb in E.
  destruct (meta_version m) as [v|]; [|discriminate].
  apply Z.eqb_eq in E. now subst.
Qed.

(** C8 at metadata of version 2 that names "2d" and two complete eyes. *)
Lemma load_session_meta_data_reset_witness :
  load_session_meta_data Sample.fs_old_version blank =
    (Ok default_session_meta_data, blank) /\
  meta_detection_method default_session_meta_data = None /\
  meta_detection_status default_session_meta_data = Some ["unknown"; "unknown"] /\
  meta_version default_session_meta_data = None.
Proof.
  apply (load_session_meta_data_reset Sample.fs_old_version blank).
  right. eexists. split; [reflexivity | discriminate].
Defined.

(** After the metadata is loaded the detection method is forced to "3d",
    whether the load fell back to the defaults or not. *)
Lemma init_attributes_forces_3d (fs : recording) (s0 s : orchestrator) :
  init_attributes fs s0 = (Ok tt, s) -> detection_method s = "3d".
Proof.
  unfold init_attributes, load_session_meta_data, try_except, set_detection_paused.
  unfold_methods. unfold assert.
  destruct s0 as [pp sub dm ds st evl efn dp dff vs ind tr]; cbn.
  destruct (meta_file fs) as [m|]; cbn.
  - destruct (version_eqb (meta_version m) session_data_version); cbn.
    + destruct (meta_detection_status m); cbn; intros H; inversion H; reflexivity.
    + intros H; inversion H; reflexivity.
  - intros H; inversion H; reflexivity.
Qed.

(* ------------------------------------------------------------------ *)
(** ** Completion and publication *)

Ltac count_publications :=
  rewrite ?publications_app; unfold publications; cbn; lia.

(** Closes the goals left after a run: traces up to re-association of
    [++], and publication counts. *)
Ltac finish :=
  cbn; rewrite <- ?app_assoc; first [reflexivity | count_publications].

Lemma publications_published (fs : recording) (s : orchestrator) :
  publications (published fs s) = 1%nat.
Proof. reflexivity. Qed.

(** C1, as the code has it.  For a [file_source.video_finished] message
    with source path [p], handled in a well-formed state:
    - while both eyes have a source, a message for either of them stops
      that eye and publishes nothing, and one source stays recorded;
    - a message for the only eye that still has a source stops it and runs
      [correlate_publish] exactly once;
    - both orders of the two eyes' messages give one publication, after
      the second message;
    - once no eye has a source, every further message runs
      [correlate_publish] again. *)
Theorem video_finished_publication (fs : recording) (p : string)
    (s : orchestrator) :
  well_formed s ->
  (forall p0 p1,
     eye_video_loc s = [Some p0; Some p1] -> p = p0 \/ p = p1 ->
     exists s',
       handle_message fs (video_finished p) s = (Ok tt, s') /\
       trace s' = (trace s ++ [Notify (eye_process_should_stop
                                         (if String.eqb p0 p then 0 else 1))])%list /\
       eye_video_loc s' = (if String.eqb p0 p then [None; Some p1]
                           else [Some p0; None]) /\
       publications (trace s') = publications (trace s)) /\
  (forall e,
     eye_video_loc s = (if e =? 0 then [Some p; None] else [None; Some p]) ->
     is_eye e ->
     exists s',
       handle_message fs (video_finished p) s = (Ok tt, s') /\
       trace s' = (trace s ++ Notify (eye_process_should_stop e)
                            :: published fs s')%list /\
       eye_video_loc s' = [None; None] /\
       getitem (detection_status s') e = Some "complete" /\
       pupil_positions s' = Some (_pupil_data_store s) /\
       publications (trace s') = S (publications (trace s))) /\
  (forall p0 p1 pa pb,
     eye_video_loc s = [Some p0; Some p1] -> p0 <> p1 -> data_sub s = true ->
     (pa = p0 /\ pb = p1) \/ (pa = p1 /\ pb = p0) ->
     exists s1 s2,
       handle_message fs (video_finished pa) s = (Ok tt, s1) /\
       publications (trace s1) = publications (trace s) /\
       handle_message fs (video_finished pb) s1 = (Ok tt, s2) /\
       publications (trace s2) = S (publications (trace s)) /\
       recent_events fs [video_finished pa; video_finished pb] s =
         (Ok tt, set_indicator_stop (detection_progress s2) s2) /\
       eye_video_loc s2 = [None; None] /\
       detection_status s2 = ["complete"; "complete"] /\
       pupil_positions s2 = Some (_pupil_data_store s)) /\
  (eye_video_loc s = [None; None] ->
     exists s',
       handle_message fs (video_finished p) s = (Ok tt, s') /\
       trace s' = (trace s ++ published fs s)%list /\
       publications (trace s') = S (publications (trace s))).
Proof.
  intros H. open_state s H.
  unfold handle_message, mark_finished, video_finished, recent_events, for_each.
  unfold_methods. cbn [topic frame subject n_source_path].
  repeat split.
  - intros p0 p1 Hloc Hp. cbn in Hloc. injection Hloc as -> ->.
    run. destruct (String.eqb p0 p) eqn:E0; run.
    + eexists; repeat split; finish.
    + destruct Hp as [Hp | Hp]; subst p;
        [rewrite String.eqb_refl in E0; discriminate|].
      rewrite String.eqb_refl. run.
      eexists; repeat split; finish.
  - intros e Hloc [-> | ->]; cbn in Hloc; injection Hloc as -> ->; run;
      rewrite String.eqb_refl; run; eexists; repeat split; finish.
  - intros p0 p1 pa pb Hloc Hne Hsub Hord. cbn in Hloc, Hsub.
    injection Hloc as -> ->. subst sub.
    assert (E01 : String.eqb p0 p1 = false) by (now apply String.eqb_neq).
    assert (E10 : String.eqb p1 p0 = false)
      by (apply String.eqb_neq; congruence).
    destruct Hord as [(-> & ->) | (-> & ->)];
      repeat (progress (run; rewrite ?String.eqb_refl, ?E01, ?E10));
      do 2 eexists;
      (split; [reflexivity|]); (split; [finish|]);
      (split; [repeat (progress (run; rewrite ?String.eqb_refl, ?E01, ?E10));
               reflexivity|]);
      (split; [finish|]);
      (split; [|repeat split]);
      unfold handle_message, mark_finished; unfold_methods;
      repeat (progress (run; rewrite ?String.eqb_refl, ?E01, ?E10));
      reflexivity.
  - intros Hloc. cbn in Hloc. injection Hloc as -> ->. run.
    eexists; repeat split; finish.
Qed.

(** C1 with eye 1 finishing before eye 0. *)
Lemma video_finished_publication_witness :
  exists s1 s2,
    handle_message Sample.fs_both (video_finished "/rec/eye1.mp4") Sample.s_detecting
      = (Ok tt, s1) /\
    publications (trace s1) = publications (trace Sample.s_detecting) /\
    handle_message Sample.fs_both (video_finished "/rec/eye0.mp4") s1 = (Ok tt, s2) /\
    publications (trace s2) = S (publications (trace Sample.s_detecting)) /\
    recent_events Sample.fs_both
      [video_finished "/rec/eye1.mp4"; video_finished "/rec/eye0.mp4"]
      Sample.s_detecting
      = (Ok tt, set_indicator_stop (detection_progress s2) s2) /\
    eye_video_loc s2 = [None; None] /\
    detection_status s2 = ["complete"; "complete"] /\
    pupil_positions s2 = Some (_pupil_data_store Sample.s_detecting).
Proof.
  assert (Hwf : well_formed Sample.s_detecting) by (repeat split; reflexivity).
  destruct (video_finished_publication Sample.fs_both "/rec/eye1.mp4"
              Sample.s_detecting Hwf) as (_ & _ & Horder & _).
  apply (Horder "/rec/eye0.mp4" "/rec/eye1.mp4").
  - reflexivity.
  - discriminate.
  - reflexivity.
  - right. split; reflexivity.
Defined.

(** C1, as stated, fails: one detection pass can publish more than once.
    Both eyes finish, then the world video's file source reports its own
    end; the third message finds both source paths cleared and runs
    [correlate_publish] a second time. *)
Lemma publication_repeats_after_completion :
  let drained := [video_finished "/rec/eye0.mp4";
                  video_finished "/rec/eye1.mp4";
                  video_finished "/rec/world.mp4"] in
  fst (recent_events Sample.fs_both drained Sample.s_detecting) = Ok tt /\
  publications (trace Sample.s_detecting) = 0%nat /\
  publications
    (trace (snd (recent_events Sample.fs_both drained Sample.s_detecting))) = 2%nat /\
  publications
    (trace (snd (recent_events Sample.fs_both (firstn 2 drained)
                   Sample.s_detecting))) = 1%nat.
Proof. vm_compute. repeat split. Qed.

(* ------------------------------------------------------------------ *)
(** ** Construction *)

Lemma getitem_0 {A} (a : A) (l : list A) : getitem (a :: l) 0 = Some a.
Proof. reflexivity. Qed.

Lemma getitem_1 {A} (a b : A) (l : list A) : getitem (a :: b :: l) 1 = Some b.
Proof.
  unfold getitem, index.
  replace (1 <? Z.of_nat (List.length (a :: b :: l))) with true
    by (symmetry; apply Z.ltb_lt; simpl List.length; lia).
  reflexivity.
Qed.

Lemma setitem_0 {A} (a : A) (l : list A) (v : A) :
  setitem (a :: l) 0 v = Some (v :: l).
Proof. reflexivity. Qed.

Lemma setitem_1 {A} (a b : A) (l : list A) (v : A) :
  setitem (a :: b :: l) 1 v = Some (a :: v :: l).
Proof.
  unfold setitem, index.
  replace (1 <? Z.of_nat (List.length (a :: b :: l))) with true
    by (symmetry; apply Z.ltb_lt; simpl List.length; lia).
  reflexivity.
Qed.

(** Symbolic execution of a run whose status list is not known in full. *)
Ltac exec :=
  repeat (progress (unfold_methods; cbn -[setitem getitem];
                    rewrite ?getitem_0, ?getitem_1, ?setitem_0, ?setitem_1)).


(** A case distinction on what the run depends on: the version check, the
    files found, and whether a status is "complete". *)
Ltac case_split :=
  match goal with
  | |- context [version_eqb ?v ?n] => destruct (version_eqb v n)
  | |- context [existing_locs ?fs ?e] => destruct (existing_locs fs e) as [|? ?]
  | |- context [videoset_is_empty ?fs ?v] => destruct (videoset_is_empty fs v)
  | |- context [String.eqb ?a "complete"] =>
      let E := fresh "E" in destruct (String.eqb a "complete") eqn:E
  end.

Lemma startup_without_source (fs : recording) (s1 : orchestrator) :
  startup fs blank = (Ok tt, s1) ->
  eye_video_loc s1 = [None; None] ->
  _pupil_data_store s1 = store_file fs /\
  trace s1 = [] /\
  (forall e, is_eye e ->
     getitem (detection_status s1) e = Some "complete" \/
     getitem (detection_status s1) e = Some "No eye video found.").
Proof.
  unfold startup, init_attributes, load_session_meta_data, try_except, for_each, assert.
  unfold_methods. unfold blank.
  destruct (meta_file fs) as [[v m [[|a [|b r]]|]]|];
    repeat (exec; try case_split);
    intros Hrun Hloc; try discriminate Hrun; injection Hrun as <-;
    try discriminate Hloc;
    (split; [reflexivity|]); (split; [reflexivity|]);
    intros e [-> | ->]; cbn [detection_status];
    rewrite ?getitem_0, ?getitem_1;
    repeat match goal with
           | H : String.eqb _ _ = true |- _ => apply String.eqb_eq in H; subst
           end; auto.
Qed.

(** C3, as the code has it.  When the start of the eye processes leaves
    both source paths unset, every eye is either complete already or
    without a video, nothing has been sent so far, and [__init__] goes on
    to publish at once: what it installs as [g_pool.pupil_positions] is the
    store as loaded from disk; the trace of the construction is that one
    publication. *)
Theorem init_publishes_loaded_store (fs : recording) (s1 : orchestrator) :
  startup fs blank = (Ok tt, s1) ->
  eye_video_loc s1 = [None; None] ->
  _pupil_data_store s1 = store_file fs /\
  trace s1 = [] /\
  (forall e, is_eye e ->
     getitem (detection_status s1) e = Some "complete" \/
     getitem (detection_status s1) e = Some "No eye video found.") /\
  exists s',
    init fs blank = (Ok tt, s') /\
    pupil_positions s' = Some (store_file fs) /\
    trace s' = published fs s1.
Proof.
  intros Hrun Hloc.
  destruct (startup_without_source fs s1 Hrun Hloc) as (Hst & Htr & Hstatus).
  repeat split; try assumption.
  unfold init. unfold bind at 1. rewrite Hrun. unfold bind at 1, gets at 1.
  rewrite Hloc. cbn [locs_eqb loc_eqb andb].
  destruct s1 as [pp sub dm ds st evl efn dp dff vs ind tr].
  cbn in Hst, Htr. subst st tr.
  unfold_methods. cbn.
  eexists; repeat split.
Qed.

(** C3 at a recording without eye videos and without stored results. *)
Lemma init_publishes_loaded_store_witness :
  let s1 := snd (startup Sample.fs_none blank) in
  _pupil_data_store s1 = store_file Sample.fs_none /\
  trace s1 = [] /\
  (forall e, is_eye e ->
     getitem (detection_status s1) e = Some "complete" \/
     getitem (detection_status s1) e = Some "No eye video found.") /\
  exists s',
    init Sample.fs_none blank = (Ok tt, s') /\
    pupil_positions s' = Some (store_file Sample.fs_none) /\
    trace s' = published Sample.fs_none s1.
Proof.
  apply (init_publishes_loaded_store Sample.fs_none
           (snd (startup Sample.fs_none blank))); reflexivity.
Defined.

(** C3, as stated, fails: with both eyes complete from an earlier session
    no eye process is started, and the snapshot published at construction
    holds the two results loaded from disk. *)
Lemma init_publishes_stored_results :
  fst (startup Sample.fs_done blank) = Ok tt /\
  eye_video_loc (snd (startup Sample.fs_done blank)) = [None; None] /\
  fst (init Sample.fs_done blank) = Ok tt /\
  pupil_positions (snd (init Sample.fs_done blank)) =
    Some [Sample.stored 0 (1#2); Sample.stored 1 (3#4)] /\
  pupil_positions (snd (init Sample.fs_done blank)) <> Some [].
Proof. vm_compute. repeat split. discriminate. Qed.

(** The mono scenario: only eye 0 has a video.  Construction starts eye 0,
    marks eye 1 as without video and publishes nothing; when eye 0's video
    ends there is exactly one publication. *)
Example mono_recording_scenario :
  let s0 := snd (init Sample.fs_mono blank) in
  let s1 := snd (recent_events Sample.fs_mono [video_finished "/rec/eye0.mp4"] s0) in
  fst (init Sample.fs_mono blank) = Ok tt /\
  detection_status s0 = ["Detecting..."; "No eye video found."] /\
  eye_video_loc s0 = [Some "/rec/eye0.mp4"; None] /\
  publications (trace s0) = 0%nat /\
  detection_status s1 = ["complete"; "No eye video found."] /\
  publications (trace s1) = 1%nat.
Proof. vm_compute. repeat split. Qed.

(* ================================================================== *)
(** * Further properties of the plugin *)

(** ** Eye processes *)


(** X1. When the first existing candidate of an eye has frames,
    [start_eye_process] sends one [eye_process.should_start] for it, records
    it as the eye's source, sets the eye's status to "Detecting..." and its
    expected frame count to the number of valid frames; the other eye, the
    store and the published snapshot are untouched. *)
Theorem start_eye_process_found (fs : recording) (eye_id : Z) (v : string)
    (s : orchestrator) :
  is_eye eye_id ->
  well_formed s ->
  hd_error (existing_locs fs eye_id) = Some v ->
  videoset_is_empty fs v = false ->
  exists s',
    start_eye_process fs eye_id s = (Ok tt, s') /\
    trace s' = (trace s ++ [Notify (eye_process_should_start eye_id v)])%list /\
    getitem (eye_video_loc s') eye_id = Some (Some v) /\
    getitem (detection_status s') eye_id = Some "Detecting..." /\
    getitem (eye_frame_num s') eye_id = Some (n_valid_frames fs v) /\
    (forall e, is_eye e -> e <> eye_id ->
       getitem (eye_video_loc s') e = getitem (eye_video_loc s) e /\
       getitem (detection_status s') e = getitem (detection_status s) e /\
       getitem (eye_frame_num s') e = getitem (eye_frame_num s) e) /\
    _pupil_data_store s' = _pupil_data_store s /\
    pupil_positions s' = pupil_positions s /\
    well_formed s'.
Proof.
  intros He H Hhd Hempty. open_state s H.
  unfold start_eye_process.
  destruct (existing_locs fs eye_id) as [|l0 rest]; [discriminate Hhd|].
  injection Hhd as ->. unfold_methods. cbn. rewrite Hempty.
  destruct He as [-> | ->]; run; eexists; (split; [reflexivity|]);
    cbn; repeat match goal with |- _ /\ _ => split end;
    first [ reflexivity
          | intros e' [-> | ->] Hne; try contradiction; repeat split
          | repeat split ].
Qed.

Lemma start_eye_process_found_witness :
  exists s',
    start_eye_process Sample.fs_both 1 Sample.s_mono = (Ok tt, s') /\
    trace s' = (trace Sample.s_mono
                ++ [Notify (eye_process_should_start 1 "/rec/eye1.mp4")])%list /\
    getitem (eye_video_loc s') 1 = Some (Some "/rec/eye1.mp4") /\
    getitem (detection_status s') 1 = Some "Detecting..." /\
    getitem (eye_frame_num s') 1 =
      Some (n_valid_frames Sample.fs_both "/rec/eye1.mp4") /\
    (forall e, is_eye e -> e <> 1 ->
       getitem (eye_video_loc s') e = getitem (eye_video_loc Sample.s_mono) e /\
       getitem (detection_status s') e = getitem (detection_status Sample.s_mono) e /\
       getitem (eye_frame_num s') e = getitem (eye_frame_num Sample.s_mono) e) /\
    _pupil_data_store s' = _pupil_data_store Sample.s_mono /\
    pupil_positions s' = pupil_positions Sample.s_mono /\
    well_formed s'.
Proof.
  apply (start_eye_process_found Sample.fs_both 1 "/rec/eye1.mp4" Sample.s_mono).
  - right. reflexivity.
  - repeat split; reflexivity.
  - reflexivity.
  - reflexivity.
Defined.





(* ------------------------------------------------------------------ *)
(** ** Messages that are not results of a known eye *)

(** X5. A topic under "pupil." that does not end in a decimal digit, such as
    "pupil.0.3d", makes [int(topic[-1])] fail: the handler raises
    [ValueError] before it looks at the payload, nothing is appended, and
    the drain ends there. *)
Theorem pupil_topic_without_eye_digit (fs : recording) (m : message) (c : ascii)
    (rest : list message) (s : orchestrator) :
  String.prefix "pupil." (topic m) = true ->
  last_char (topic m) = Some c ->
  int_of_char c = None ->
  handle_message fs m s = (Raise ValueError, s) /\
  (data_sub s = true ->
   recent_events fs (m :: rest) s = (Raise ValueError, s)).
Proof.
  intros Hpre Hlast Hint.
  assert (Hrun : handle_message fs m s = (Raise ValueError, s)).
  { unfold handle_message. rewrite Hpre, Hlast.
    unfold bind, or_raise, ret, raise. cbn beta iota. rewrite Hint. reflexivity. }
  split; [exact Hrun|].
  intros Hsub. unfold recent_events, bind at 1 2. unfold gets at 1. rewrite Hsub.
  simpl. unfold bind at 1 2. rewrite Hrun. reflexivity.
Qed.

Lemma pupil_topic_without_eye_digit_witness :
  let m := {| topic := "pupil.0.3d"; frame := Datum (Sample.datum 0 (1#4)) |} in
  handle_message Sample.fs_both m Sample.s_detecting =
    (Raise ValueError, Sample.s_detecting) /\
  (data_sub Sample.s_detecting = true ->
   recent_events Sample.fs_both [m; video_finished "/rec/eye0.mp4"]
     Sample.s_detecting = (Raise ValueError, Sample.s_detecting)).
Proof.
  apply (pupil_topic_without_eye_digit Sample.fs_both
           {| topic := "pupil.0.3d"; frame := Datum (Sample.datum 0 (1#4)) |}
           "d"%char); reflexivity.
Defined.

(** X6. A notification on the bus changes nothing when its subject is not
    "file_source.video_finished", and neither does a video_finished
    message whose source path is no eye's recorded source while some eye
    still has one. *)
Theorem foreign_notification_ignored (fs : recording) (s : orchestrator) :
  well_formed s ->
  (forall m n,
     String.prefix "pupil." (topic m) = false ->
     frame m = Notification n ->
     subject n <> "file_source.video_finished" ->
     handle_message fs m s = (Ok tt, s)) /\
  (forall p,
     getitem (eye_video_loc s) 0 <> Some (Some p) ->
     getitem (eye_video_loc s) 1 <> Some (Some p) ->
     eye_video_loc s <> [None; None] ->
     handle_message fs (video_finished p) s = (Ok tt, s)).
Proof.
  intros H. split.
  - intros m n Hpre Hframe Hsub. unfold handle_message.
    rewrite Hpre, Hframe. unfold bind, ret.
    apply String.eqb_neq in Hsub. rewrite Hsub. reflexivity.
  - intros p H0 H1 Hloc. open_state s H.
    unfold handle_message, mark_finished, video_finished. unfold_methods.
    cbn [topic frame subject n_source_path]. run.
    assert (E0 : loc_eqb o (Some p) = false).
    { destruct o as [q|]; [|reflexivity]. cbn. apply String.eqb_neq.
      intros ->. now apply H0. }
    assert (E1 : loc_eqb o0 (Some p) = false).
    { destruct o0 as [q|]; [|reflexivity]. cbn. apply String.eqb_neq.
      intros ->. now apply H1. }
    rewrite E0. run. rewrite E1. run.
    destruct o, o0; cbn; try reflexivity. now contradiction Hloc.
Qed.

Lemma foreign_notification_ignored_witness :
  handle_message Sample.fs_both (video_finished "/rec/world.mp4")
    Sample.s_detecting = (Ok tt, Sample.s_detecting).
Proof.
  assert (Hwf : well_formed Sample.s_detecting) by (repeat split; reflexivity).
  destruct (foreign_notification_ignored Sample.fs_both Sample.s_detecting Hwf)
    as [_ H].
  apply H; discriminate.
Defined.

(** X7. After a drain that returns, the progress indicator shows the progress
    of the state the drain ended in, which is at most 1. *)
Theorem recent_events_updates_indicator (fs : recording)
    (pending : list message) (s s' : orchestrator) :
  recent_events fs pending s = (Ok tt, s') ->
  indicator_stop s' = detection_progress s' /\
  (indicator_stop s' <= 1)%Q.
Proof.
  unfold recent_events, bind, gets, modify.
  destruct (data_sub s); cbn; [|discriminate].
  destruct (for_each pending (handle_message fs) s) as [[[]|e] s1];
    [|discriminate].
  intros [= <-].
  assert (E : indicator_stop (set_indicator_stop (detection_progress s1) s1)
              = detection_progress (set_indicator_stop (detection_progress s1) s1))
    by (destruct s1; reflexivity).
  split; [exact E|]. rewrite E.
  unfold detection_progress.
  destruct (negb _); [apply min_1_le | discriminate].
Qed.

Lemma recent_events_updates_indicator_witness :
  let s' := snd (recent_events Sample.fs_both
                   [video_finished "/rec/eye0.mp4"] Sample.s_overfull) in
  indicator_stop s' = detection_progress s' /\ (indicator_stop s' <= 1)%Q.
Proof.
  apply (recent_events_updates_indicator Sample.fs_both
           [video_finished "/rec/eye0.mp4"] Sample.s_overfull).
  reflexivity.
Defined.

(** X8. Once [cleanup] has run, the subscription is gone: a further
    [recent_events] raises [AttributeError] at once and changes nothing,
    whatever messages are waiting. *)
Theorem recent_events_after_cleanup (fs : recording) (pending : list message)
    (s : orchestrator) :
  List.length (eye_video_loc s) = 2%nat ->
  exists s1,
    cleanup fs s = (Ok tt, s1) /\
    recent_events fs pending s1 = (Raise AttributeError, s1).
Proof.
  intros H. destruct s as [pp sub dm ds st evl efn dp dff vs ind tr].
  simpl in H. two_elements evl H.
  unfold cleanup, recent_events. unfold_methods. cbn.
  eexists; split; reflexivity.
Qed.

Lemma recent_events_after_cleanup_witness :
  exists s1,
    cleanup Sample.fs_both Sample.s_detecting = (Ok tt, s1) /\
    recent_events Sample.fs_both [video_finished "/rec/eye0.mp4"] s1 =
      (Raise AttributeError, s1).
Proof.
  apply (recent_events_after_cleanup Sample.fs_both
           [video_finished "/rec/eye0.mp4"] Sample.s_detecting).
  reflexivity.
Defined.

(* ------------------------------------------------------------------ *)
(** ** What a drain leaves alone *)

(** Case analysis on whatever a run still depends on. *)
Ltac grind :=
  repeat (cbn -[setitem getitem String.eqb String.prefix] in *;
          match goal with
          | |- context [match ?x with _ => _ end] =>
              lazymatch x with
              | context [match _ with _ => _ end] => fail
              | _ => let E := fresh "E" in destruct x eqn:E
              end
          end).

(** One message leaves the expected frame counts, the detection method,
    the subscription and the pause flag as they are, and either leaves the
    store as it is or appends the message's datum to it. *)
Lemma handle_message_frame (fs : recording) (m : message) (s s' : orchestrator)
    (r : result unit) :
  handle_message fs m s = (r, s') ->
  eye_frame_num s' = eye_frame_num s /\
  detection_method s' = detection_method s /\
  data_sub s' = data_sub s /\
  _detection_paused s' = _detection_paused s /\
  (_pupil_data_store s' = _pupil_data_store s \/
   exists d, _pupil_data_store s' =
               append (topic m) d (datum_timestamp d) (_pupil_data_store s)).
Proof.
  destruct s as [pp sub dm ds st evl efn dp dff vs ind tr].
  unfold handle_message, mark_finished, assert. unfold_methods.
  grind; intros [= <- <-]; cbn -[append]; repeat split;
    first [now left | right; eexists; reflexivity].
Qed.

Lemma extends_trans (a b c : store) :
  extends a b -> extends b c -> extends a c.
Proof.
  intros Hab Hbc. induction Hbc as [|tp d ts st' _ IH]; [exact Hab|].
  now constructor.
Qed.

Lemma extends_In (st st' : store) (x : entry) :
  extends st st' -> In x st -> In x st'.
Proof.
  induction 1 as [|tp d ts st' _ IH]; intros Hin; [exact Hin|].
  apply insert_keeps. now apply IH.
Qed.

Lemma filter_insert_length (f : entry -> bool) (e : entry) (st : store) :
  List.length (filter f (insert e st)) =
    (List.length (filter f st) + if f e then 1 else 0)%nat.
Proof.
  induction st as [|x r IH]; simpl.
  - destruct (f e); reflexivity.
  - destruct (Qle_bool (e_timestamp x) (e_timestamp e)); simpl.
    + destruct (f x); simpl; rewrite IH; reflexivity.
    + destruct (f e), (f x); simpl; lia.
Qed.

Lemma extends_select (st st' : store) (eye : option Z) (tag : string) :
  extends st st' -> len (select eye tag st) <= len (select eye tag st').
Proof.
  unfold len, select.
  induction 1 as [|tp d ts st' _ IH]; [lia|].
  unfold append. rewrite filter_insert_length. lia.
Qed.

Lemma for_each_handle_message_frame (fs : recording) (pending : list message) :
  forall (s s' : orchestrator) (r : result unit),
    for_each pending (handle_message fs) s = (r, s') ->
    eye_frame_num s' = eye_frame_num s /\
    detection_method s' = detection_method s /\
    data_sub s' = data_sub s /\
    _detection_paused s' = _detection_paused s /\
    extends (_pupil_data_store s) (_pupil_data_store s').
Proof.
  induction pending as [|m rest IH]; intros s s' r; cbn [for_each].
  - intros [= <- <-]. repeat split. constructor.
  - unfold bind. destruct (handle_message fs m s) as [[[]|e] s1] eqn:Hm.
    + intros Hrest. apply IH in Hrest as (H1 & H2 & H3 & H4 & H5).
      apply handle_message_frame in Hm as (G1 & G2 & G3 & G4 & G5).
      repeat split; try congruence.
      destruct G5 as [G5 | (d & G5)]; rewrite G5 in H5; [exact H5|].
      eapply extends_trans; [|exact H5]. repeat constructor.
    + intros [= <- <-].
      apply handle_message_frame in Hm as (G1 & G2 & G3 & G4 & G5).
      repeat split; try assumption.
      destruct G5 as [-> | (d & ->)]; repeat constructor.
Qed.

(** What a whole drain leaves alone. *)
Lemma recent_events_frame (fs : recording) (pending : list message)
    (s s' : orchestrator) (r : result unit) :
  recent_events fs pending s = (r, s') ->
  eye_frame_num s' = eye_frame_num s /\
  detection_method s' = detection_method s /\
  _detection_paused s' = _detection_paused s /\
  data_sub s' = data_sub s /\
  extends (_pupil_data_store s) (_pupil_data_store s') /\
  (forall x, In x (_pupil_data_store s) -> In x (_pupil_data_store s')).
Proof.
  unfold recent_events, bind, gets, modify.
  destruct (data_sub s) eqn:Hsub; cbn.
  - destruct (for_each pending (handle_message fs) s) as [[[]|e] s1] eqn:Hd;
      intros [= <- <-];
      apply for_each_handle_message_frame in Hd as (H1 & H2 & H3 & H4 & H5);
      [destruct s1 as [pp sub dm ds st evl efn dp dff vs ind tr]; cbn in *|];
      repeat split; try congruence; try assumption;
      intros x; now apply extends_In.
  - intros [= <- <-]. repeat split; try assumption; try constructor.
    auto.
Qed.

(** X9. A drain, whether it returns or raises, never loses a stored result and
    never changes the expected frame counts, the detection method or the
    pause flag; it only appends to the store. *)
Theorem recent_events_only_appends (fs : recording) (pending : list message)
    (s s' : orchestrator) (r : result unit) :
  recent_events fs pending s = (r, s') ->
  eye_frame_num s' = eye_frame_num s /\
  detection_method s' = detection_method s /\
  _detection_paused s' = _detection_paused s /\
  data_sub s' = data_sub s /\
  extends (_pupil_data_store s) (_pupil_data_store s') /\
  (forall x, In x (_pupil_data_store s) -> In x (_pupil_data_store s')).
Proof.
  intros Hrun.
  destruct (recent_events_frame fs pending s s' r Hrun)
    as (Hefn & Hdm & Hdp & Hsub & Hext & Hin).
  repeat split; assumption.
Qed.

Lemma recent_events_only_appends_witness :
  let s' := snd (recent_events Sample.fs_both
                   [{| topic := "pupil.1"; frame := Datum (Sample.datum 1 (1#4)) |};
                    video_finished "/rec/eye0.mp4"] Sample.s_detecting) in
  eye_frame_num s' = eye_frame_num Sample.s_detecting /\
  detection_method s' = detection_method Sample.s_detecting /\
  _detection_paused s' = _detection_paused Sample.s_detecting /\
  data_sub s' = data_sub Sample.s_detecting /\
  extends (_pupil_data_store Sample.s_detecting) (_pupil_data_store s') /\
  (forall x, In x (_pupil_data_store Sample.s_detecting) ->
             In x (_pupil_data_store s')).
Proof.
  apply (recent_events_only_appends Sample.fs_both
           [{| topic := "pupil.1"; frame := Datum (Sample.datum 1 (1#4)) |};
            video_finished "/rec/eye0.mp4"] Sample.s_detecting _ (Ok tt)).
  reflexivity.
Defined.

(* ------------------------------------------------------------------ *)
(** ** More on the progress *)

Lemma min_1_monotone (x y : Q) : (x <= y)%Q -> (min_1 x <= min_1 y)%Q.
Proof.
  intros H. unfold min_1.
  destruct (Qle_bool x 1) eqn:Ex, (Qle_bool y 1) eqn:Ey.
  - exact H.
  - now apply Qle_bool_iff.
  - apply Qle_bool_iff in Ey.
    assert (Hx : Qle_bool x 1 = true)
      by (apply Qle_bool_iff; now apply Qle_trans with y).
    congruence.
  - apply Qle_refl.
Qed.

Lemma ratio_monotone (a b t : Z) :
  a <= b -> 0 < t -> (inject_Z a / inject_Z t <= inject_Z b / inject_Z t)%Q.
Proof.
  intros Hab Ht. unfold Qdiv. apply Qmult_le_compat_r.
  - now rewrite <- Zle_Qle.
  - apply Qinv_le_0_compat. change 0%Q with (inject_Z 0).
    rewrite <- Zle_Qle. lia.
Qed.

Lemma ratio_nonneg (a t : Z) :
  0 <= a -> 0 < t -> (0 <= inject_Z a / inject_Z t)%Q.
Proof.
  intros Ha Ht. unfold Qdiv. apply Qmult_le_0_compat.
  - change 0%Q with (inject_Z 0). now rewrite <- Zle_Qle.
  - apply Qinv_le_0_compat. change 0%Q with (inject_Z 0).
    rewrite <- Zle_Qle. lia.
Qed.

Lemma min_1_nonneg (x : Q) : (0 <= x)%Q -> (0 <= min_1 x)%Q.
Proof.
  intros H. unfold min_1. destruct (Qle_bool x 1); [exact H | discriminate].
Qed.

Lemma len_nonneg (st : store) : 0 <= len st.
Proof. unfold len. lia. Qed.

(** X10. With expected frame counts that do not sum to a negative number, the
    progress is never negative, and a drain, whether it returns or raises,
    never makes the progress go down. *)
Theorem recent_events_progress_monotone (fs : recording)
    (pending : list message) (s s' : orchestrator) (r : result unit) :
  recent_events fs pending s = (r, s') ->
  0 <= sum (eye_frame_num s) ->
  (0 <= detection_progress s)%Q /\
  (detection_progress s <= detection_progress s')%Q.
Proof.
  intros Hrun Htot.
  apply recent_events_frame in Hrun as (Hefn & Hdm & _ & _ & Hext & _).
  unfold detection_progress. rewrite Hefn, Hdm.
  destruct (sum (eye_frame_num s) =? 0) eqn:E; cbn [negb].
  - split; apply Qle_refl.
  - apply Z.eqb_neq in E.
    assert (Hpos : 0 < sum (eye_frame_num s)) by lia.
    split.
    + apply min_1_nonneg, ratio_nonneg; [apply len_nonneg | exact Hpos].
    + apply min_1_monotone, ratio_monotone; [|exact Hpos].
      now apply extends_select.
Qed.

Lemma recent_events_progress_monotone_witness :
  let s' := snd (recent_events Sample.fs_both
                   [{| topic := "pupil.1"; frame := Datum (Sample.datum 1 (1#4)) |}]
                   Sample.s_detecting) in
  (0 <= detection_progress Sample.s_detecting)%Q /\
  (detection_progress Sample.s_detecting <= detection_progress s')%Q.
Proof.
  apply (recent_events_progress_monotone Sample.fs_both
           [{| topic := "pupil.1"; frame := Datum (Sample.datum 1 (1#4)) |}]
           Sample.s_detecting _ (Ok tt)).
  - reflexivity.
  - discriminate.
Defined.

(** X11. After [redetect] the progress is zero, whatever it was. *)
Theorem redetect_resets_progress (fs : recording) (s : orchestrator) :
  well_formed s ->
  (detection_progress (snd (redetect fs s)) == 0)%Q.
Proof.
  intros H. destruct (redetect_run fs s H) as (s' & Hrun & Hst & _).
  rewrite Hrun. cbn [snd]. unfold detection_progress. rewrite Hst.
  destruct (negb _); [|reflexivity].
  cbn [select filter len List.length Z.of_nat].
  unfold min_1.
  assert (E : (inject_Z 0 / inject_Z (sum (eye_frame_num s')) == 0)%Q)
    by (unfold Qdiv; apply Qmult_0_l).
  assert (Hle : Qle_bool (inject_Z 0 / inject_Z (sum (eye_frame_num s'))) 1 = true)
    by (apply Qle_bool_iff; rewrite E; discriminate).
  rewrite Hle. exact E.
Qed.

Lemma redetect_resets_progress_witness :
  (detection_progress (snd (redetect Sample.fs_both Sample.s_overfull)) == 0)%Q.
Proof.
  apply (redetect_resets_progress Sample.fs_both Sample.s_overfull).
  repeat split; reflexivity.
Defined.

(* ------------------------------------------------------------------ *)
(** ** Consistency of source paths and status *)

Lemma consistent_intro pp sub dm a b st x y f0 f1 dp dff vs ind tr :
  eye_ok x a -> eye_ok y b ->
  consistent {| pupil_positions := pp; data_sub := sub; detection_method := dm;
                detection_status := [a; b]; _pupil_data_store := st;
                eye_video_loc := [x; y]; eye_frame_num := [f0; f1];
                _detection_paused := dp; detection_finished_flag := dff;
                videoset := vs; indicator_stop := ind; trace := tr |}.
Proof.
  intros Hx Hy. split; [repeat split|].
  intros e p [-> | ->]; run; intros [= ->]; f_equal;
    first [apply Hx; discriminate | apply Hy; discriminate].
Qed.

Lemma consistent_elim pp sub dm a b st x y efn dp dff vs ind tr :
  consistent {| pupil_positions := pp; data_sub := sub; detection_method := dm;
                detection_status := [a; b]; _pupil_data_store := st;
                eye_video_loc := [x; y]; eye_frame_num := efn;
                _detection_paused := dp; detection_finished_flag := dff;
                videoset := vs; indicator_stop := ind; trace := tr |} ->
  eye_ok x a /\ eye_ok y b.
Proof.
  intros [_ H]. split.
  - destruct x as [p|]; [|intros C; now contradiction C].
    intros _. specialize (H 0 p (or_introl eq_refl) eq_refl).
    revert H. run. now intros [= ->].
  - destruct y as [p|]; [|intros C; now contradiction C].
    intros _. specialize (H 1 p (or_intror eq_refl) eq_refl).
    revert H. run. now intros [= ->].
Qed.

(** Destructs a consistent state into its parts. *)
Ltac open_consistent s H :=
  let Hwf := fresh "Hwf" in
  pose proof (proj1 H) as Hwf;
  open_state s Hwf;
  apply consistent_elim in H; destruct H as [Hok0 Hok1].

Ltac close_consistent :=
  apply consistent_intro; unfold eye_ok in *; intros;
  first [ reflexivity | congruence | tauto
        | match goal with H : _ -> ?a = _ |- ?a = _ => apply H; congruence end ].

Ltac cases :=
  repeat (run;
          match goal with
          | |- context [match ?x with _ => _ end] =>
              lazymatch x with
              | context [match _ with _ => _ end] => fail
              | _ => let E := fresh "E" in destruct x eqn:E
              end
          end).

Lemma handle_message_consistent (fs : recording) (m : message)
    (s s' : orchestrator) (r : result unit) :
  consistent s -> handle_message fs m s = (r, s') -> consistent s'.
Proof.
  intros H. open_consistent s H.
  unfold handle_message, mark_finished, assert. unfold_methods.
  cases; intros [= <- <-]; close_consistent.
Qed.

Lemma consistent_same (s s' : orchestrator) :
  detection_status s' = detection_status s ->
  eye_video_loc s' = eye_video_loc s ->
  eye_frame_num s' = eye_frame_num s ->
  consistent s -> consistent s'.
Proof.
  intros Hds Hevl Hefn [Hwf Hsrc]. split.
  - unfold well_formed. now rewrite Hds, Hevl, Hefn.
  - unfold source_is_detecting. now rewrite Hds, Hevl.
Qed.

Lemma for_each_handle_message_consistent (fs : recording)
    (pending : list message) :
  forall (s s' : orchestrator) (r : result unit),
    consistent s ->
    for_each pending (handle_message fs) s = (r, s') -> consistent s'.
Proof.
  induction pending as [|m rest IH]; intros s s' r H; cbn [for_each].
  - now intros [= <- <-].
  - unfold bind. destruct (handle_message fs m s) as [[[]|e] s1] eqn:Hm.
    + apply IH. eapply handle_message_consistent; eassumption.
    + intros [= <- <-]. eapply handle_message_consistent; eassumption.
Qed.

Lemma redetect_consistent (fs : recording) (s s' : orchestrator)
    (r : result unit) :
  consistent s -> redetect fs s = (r, s') -> consistent s'.
Proof.
  intros H Hrun.
  destruct (redetect_run fs s (proj1 H))
    as (s1 & Hrun1 & _ & _ & _ & _ & _ & H0 & H1 & Hwf).
  rewrite Hrun1 in Hrun. injection Hrun as <- <-.
  split; [exact Hwf|].
  destruct H as [_ Hsrc].
  assert (Heye : forall e, is_eye e -> restarted_eye fs e s s1)
    by (intros e [-> | ->]; assumption).
  intros e p He Hloc. specialize (Heye e He). unfold restarted_eye in Heye.
  destruct (getitem (eye_video_loc s) e) as [[q|]|] eqn:Eq.
  - destruct Heye as (_ & -> & _). now apply (Hsrc e q).
  - destruct (found_video fs e); [tauto|].
    destruct Heye as (Hnone & _). congruence.
  - destruct (found_video fs e); [tauto|].
    destruct Heye as (Hnone & _). congruence.
Qed.

(** Assigning into a list of two changes one of its two entries. *)
Lemma setitem_two {A} (a b : A) (i : Z) (v : A) (l : list A) :
  setitem [a; b] i v = Some l -> l = [v; b] \/ l = [a; v].
Proof.
  unfold setitem. destruct (index (List.length [a; b]) i) as [n|] eqn:E;
    [|discriminate].
  apply index_lt in E. cbn in E. intros [= <-].
  destruct n as [|[|n]]; cbn; [now left | now right | lia].
Qed.

Lemma on_notify_consistent (fs : recording) (n : notification_in)
    (s s' : orchestrator) (r : result unit) :
  consistent s -> on_notify fs n s = (r, s') -> consistent s'.
Proof.
  intros H. unfold on_notify.
  destruct (String.eqb (subject n) "eye_process.started").
  - unfold bind at 1, gets at 1.
    unfold set_detection_mapping_mode, notify_all, emit, modify, bind.
    destruct (redetect fs _) as [[[]|e] s1] eqn:Hrun; intros [= <- <-];
      apply redetect_consistent in Hrun;
      try (eapply consistent_same; [| | |exact Hrun]; destruct s1; reflexivity);
      try exact Hrun;
      (eapply consistent_same; [| | |exact H]; destruct s; reflexivity).
  - destruct (String.eqb (subject n) "eye_process.stopped");
      [|now intros [= <- <-]].
    unfold assign_item, bind, gets, or_raise, ret, raise, modify.
    destruct (n_eye_id n) as [e|]; [|now intros [= <- <-]].
    destruct (setitem (eye_video_loc s) e None) as [l|] eqn:El;
      [|now intros [= <- <-]].
    intros [= <- <-]. open_consistent s H. cbn in El.
    apply setitem_two in El as [-> | ->]; cbn; close_consistent.
Qed.

Lemma call_consistent (fs : recording) (c : call) (s s' : orchestrator)
    (r : result unit) :
  consistent s -> run_call fs c s = (r, s') -> consistent s'.
Proof.
  intros H. destruct c as [pending|n| |new_mode|should_pause|]; cbn [run_call].
  - unfold recent_events, bind, gets, modify.
    destruct (data_sub s); cbn; [|now intros [= <- <-]].
    destruct (for_each pending (handle_message fs) s) as [[[]|e] s1] eqn:Hd;
      intros [= <- <-];
      apply (for_each_handle_message_consistent _ _ _ _ _ H) in Hd;
      [|exact Hd].
    eapply consistent_same; [| | |exact Hd]; destruct s1; reflexivity.
  - now apply on_notify_consistent.
  - now apply redetect_consistent.
  - unfold set_detection_mapping_mode, notify_all, emit, modify, bind.
    destruct (redetect fs _) as [[[]|e] s1] eqn:Hrun; intros [= <- <-];
      apply redetect_consistent in Hrun;
      try (eapply consistent_same; [| | |exact Hrun]; destruct s1; reflexivity);
      try exact Hrun;
      (eapply consistent_same; [| | |exact H]; destruct s; reflexivity).
  - open_consistent s H.
    unfold set_detection_paused, for_each. unfold_methods.
    cases; intros [= <- <-]; close_consistent.
  - open_consistent s H. unfold cleanup. unfold_methods.
    cases; intros [= <- <-]; close_consistent.
Qed.

(** X12. Every call on a consistent plugin leaves it consistent, whether the
    call returns or raises: the three per-eye lists keep their two entries,
    and an eye with a recorded source has the status "Detecting...".  So
    does any sequence of calls. *)
Theorem calls_keep_consistent (fs : recording) (cs : list call)
    (s : orchestrator) :
  consistent s -> consistent (run_calls fs cs s).
Proof.
  revert s. induction cs as [|c rest IH]; intros s H; cbn [run_calls];
    [exact H|].
  destruct (run_call fs c s) as [[[]|e] s1] eqn:Hc.
  - apply IH. eapply call_consistent; eassumption.
  - eapply call_consistent; eassumption.
Qed.

(* ------------------------------------------------------------------ *)
(** ** Construction, eye by eye *)

(** Construction on a loaded status list of two entries, in full. *)
Lemma init_by_eye (fs : recording) (a b : string) :
  loaded_status fs = Some [a; b] ->
  exists s1 s',
    startup fs blank = (Ok tt, s1) /\
    trace s1 = (start_request fs a 0 ++ start_request fs b 1)%list /\
    detection_status s1 = [started_status fs a 0; started_status fs b 1] /\
    eye_video_loc s1 = [started_loc fs a 0; started_loc fs b 1] /\
    detection_method s1 = "3d" /\
    _pupil_data_store s1 = store_file fs /\
    init fs blank = (Ok tt, s') /\
    trace s' = (trace s1 ++
                if locs_eqb (eye_video_loc s1) [None; None]
                then published fs s1 else [])%list /\
    detection_status s' = detection_status s1 /\
    eye_video_loc s' = eye_video_loc s1 /\
    _pupil_data_store s' = store_file fs /\
    pupil_positions s' = (if locs_eqb (eye_video_loc s1) [None; None]
                          then Some (store_file fs) else None) /\
    consistent s'.
Proof.
  unfold loaded_status.
  unfold init, startup, init_attributes, load_session_meta_data, try_except,
    for_each, assert.
  unfold start_request, started_status, started_loc, found_video.
  unfold_methods. unfold blank.
  destruct (meta_file fs) as [[v m l]|]; cbn [meta_version meta_detection_status];
    [destruct (version_eqb v session_data_version)|];
    intros Hl; first [subst l | injection Hl as <- <-];
    repeat (exec; try case_split);
    repeat match goal with
           | H : String.eqb _ _ = true |- _ =>
               apply String.eqb_eq in H; try discriminate H; subst
           end;
    do 2 eexists;
    repeat match goal with |- _ /\ _ => split end;
    first [reflexivity | close_consistent].
Qed.

(** X13. With a loaded status list of two entries, [__init__] returns and has
    sent an [eye_process.should_start] exactly for the eyes that are not
    "complete" and have a video with frames, eye 0 first.  An eye that was
    "complete" stays so; the others are "Detecting..." or "No eye video
    found.".  The method is "3d", the store is the one on disk, the plugin
    is consistent, and the store is published at once exactly when no eye
    was started. *)
Theorem init_starts_incomplete_eyes (fs : recording) (a b : string) :
  loaded_status fs = Some [a; b] ->
  exists s1 s',
    startup fs blank = (Ok tt, s1) /\
    trace s1 = (start_request fs a 0 ++ start_request fs b 1)%list /\
    detection_status s1 = [started_status fs a 0; started_status fs b 1] /\
    eye_video_loc s1 = [started_loc fs a 0; started_loc fs b 1] /\
    detection_method s1 = "3d" /\
    _pupil_data_store s1 = store_file fs /\
    init fs blank = (Ok tt, s') /\
    trace s' = (trace s1 ++
                if locs_eqb (eye_video_loc s1) [None; None]
                then published fs s1 else [])%list /\
    detection_status s' = detection_status s1 /\
    eye_video_loc s' = eye_video_loc s1 /\
    _pupil_data_store s' = store_file fs /\
    pupil_positions s' = (if locs_eqb (eye_video_loc s1) [None; None]
                          then Some (store_file fs) else None) /\
    consistent s'.
Proof.
  intros Hloaded.
  destruct (init_by_eye fs a b Hloaded) as (s1 & s' & Hrest).
  exists s1, s'. exact Hrest.
Qed.

Lemma init_starts_incomplete_eyes_witness :
  exists s1 s',
    startup Sample.fs_done blank = (Ok tt, s1) /\
    trace s1 = (start_request Sample.fs_done "complete" 0
                ++ start_request Sample.fs_done "complete" 1)%list /\
    detection_status s1 = [started_status Sample.fs_done "complete" 0;
                           started_status Sample.fs_done "complete" 1] /\
    eye_video_loc s1 = [started_loc Sample.fs_done "complete" 0;
                        started_loc Sample.fs_done "complete" 1] /\
    detection_method s1 = "3d" /\
    _pupil_data_store s1 = store_file Sample.fs_done /\
    init Sample.fs_done blank = (Ok tt, s') /\
    trace s' = (trace s1 ++
                if locs_eqb (eye_video_loc s1) [None; None]
                then published Sample.fs_done s1 else [])%list /\
    detection_status s' = detection_status s1 /\
    eye_video_loc s' = eye_video_loc s1 /\
    _pupil_data_store s' = store_file Sample.fs_done /\
    pupil_positions s' = (if locs_eqb (eye_video_loc s1) [None; None]
                          then Some (store_file Sample.fs_done) else None) /\
    consistent s'.
Proof.
  apply (init_starts_incomplete_eyes Sample.fs_done "complete" "complete").
  reflexivity.
Defined.

Lemma calls_keep_consistent_witness :
  consistent
    (run_calls Sample.fs_both
       [Recent_events [video_finished "/rec/eye1.mp4"];
        On_notify (eye_process_stopped 0);
        Redetect;
        Set_detection_paused true;
        Cleanup]
       Sample.s_detecting).
Proof.
  apply (calls_keep_consistent Sample.fs_both).
  apply consistent_intro; intros _; reflexivity.
Defined.

(** X14. On a consistent plugin [redetect] leaves every eye either
    "Detecting..." or "No eye video found.": no eye stays "complete" or
    "unknown" once detection has been restarted. *)
Theorem redetect_status_of_consistent (fs : recording) (s : orchestrator) :
  consistent s ->
  exists s',
    redetect fs s = (Ok tt, s') /\
    consistent s' /\
    forall e, is_eye e ->
      getitem (detection_status s') e = Some "Detecting..." \/
      getitem (detection_status s') e = Some "No eye video found.".
Proof.
  intros H.
  destruct (redetect_run fs s (proj1 H))
    as (s' & Hrun & _ & _ & _ & _ & _ & H0 & H1 & Hwf).
  exists s'. split; [exact Hrun|]. split.
  - eapply redetect_consistent; eassumption.
  - destruct H as [_ Hsrc].
    assert (Heye : forall e, is_eye e -> restarted_eye fs e s s')
      by (intros e [-> | ->]; assumption).
    intros e He. specialize (Heye e He). unfold restarted_eye in Heye.
    destruct (getitem (eye_video_loc s) e) as [[q|]|] eqn:Eq.
    + left. destruct Heye as (_ & -> & _). now apply (Hsrc e q).
    + destruct (found_video fs e); [left | right]; tauto.
    + destruct (found_video fs e); [left | right]; tauto.
Qed.

Lemma redetect_status_of_consistent_witness :
  exists s',
    redetect Sample.fs_mono Sample.s_finished = (Ok tt, s') /\
    consistent s' /\
    forall e, is_eye e ->
      getitem (detection_status s') e = Some "Detecting..." \/
      getitem (detection_status s') e = Some "No eye video found.".
Proof.
  apply (redetect_status_of_consistent Sample.fs_mono Sample.s_finished).
  apply consistent_intro; intros C; now contradiction C.
Defined.

(* ------------------------------------------------------------------ *)
(** ** An eye process reports that it started *)

(** X15. Handling [eye_process.started] broadcasts the current detection method
    and restarts detection: the store and the published snapshot are
    emptied, the method stays what it was, and the requests of a
    [redetect] follow the broadcast. *)
Theorem on_notify_started_restarts (fs : recording) (n : notification_in)
    (s : orchestrator) :
  well_formed s ->
  subject n = "eye_process.started" ->
  exists s',
    on_notify fs n s = (Ok tt, s') /\
    _pupil_data_store s' = [] /\
    pupil_positions s' = Some [] /\
    detection_method s' = detection_method s /\
    trace s' = (trace s
                ++ Notify (set_detection_mapping_mode_n (detection_method s))
                   :: [SetPupilPositions []; AnnounceNew]
                ++ play_requests (eye_video_loc s)
                ++ restart_request fs (eye_video_loc s) 0
                ++ restart_request fs (eye_video_loc s) 1)%list.
Proof.
  intros H Hsub. unfold on_notify.
  destruct (String.eqb_spec (subject n) "eye_process.started"); [|contradiction].
  unfold bind at 1, gets at 1.
  unfold set_detection_mapping_mode, notify_all, emit, modify, bind at 1.
  assert (H0 : well_formed
                 (set_trace (trace s ++ [Notify (set_detection_mapping_mode_n
                                                   (detection_method s))]) s))
    by (destruct s; exact H).
  destruct (redetect_run fs _ H0) as (s1 & Hrun & Hst & Hpp & _ & Hdm & Htr & _).
  unfold bind. rewrite Hrun.
  exists (set_detection_method (detection_method s) s1).
  split; [reflexivity|].
  destruct s1 as [pp1 sub1 dm1 ds1 st1 evl1 efn1 dp1 dff1 vs1 ind1 tr1].
  destruct s as [pp sub dm ds st evl efn dp dff vs ind tr].
  cbn in *. subst. rewrite <- app_assoc. repeat split.
Qed.

Lemma on_notify_started_restarts_witness :
  exists s',
    on_notify Sample.fs_both
      {| subject := "eye_process.started"; n_source_path := None;
         n_eye_id := Some 0 |} Sample.s_overfull = (Ok tt, s') /\
    _pupil_data_store s' = [] /\
    pupil_positions s' = Some [] /\
    detection_method s' = detection_method Sample.s_overfull /\
    trace s' = (trace Sample.s_overfull
                ++ Notify (set_detection_mapping_mode_n
                             (detection_method Sample.s_overfull))
                   :: [SetPupilPositions []; AnnounceNew]
                ++ play_requests (eye_video_loc Sample.s_overfull)
                ++ restart_request Sample.fs_both
                     (eye_video_loc Sample.s_overfull) 0
                ++ restart_request Sample.fs_both
                     (eye_video_loc Sample.s_overfull) 1)%list.
Proof.
  apply (on_notify_started_restarts Sample.fs_both
           {| subject := "eye_process.started"; n_source_path := None;
              n_eye_id := Some 0 |} Sample.s_overfull).
  - repeat split; reflexivity.
  - reflexivity.
Defined.

(* ------------------------------------------------------------------ *)
(** ** Saving and loading again *)

Lemma written_app (a b : list event) (fs : recording) :
  written (a ++ b) fs = written b (written a fs).
Proof. unfold written. apply fold_left_app. Qed.

Lemma write_event_keeps (fs : recording) (e : event) :
  rec_dir (write_event fs e) = rec_dir fs /\
  path_exists (write_event fs e) = path_exists fs /\
  videoset_is_empty (write_event fs e) = videoset_is_empty fs /\
  n_valid_frames (write_event fs e) = n_valid_frames fs.
Proof.
  destruct e; cbn [write_event]; try (repeat split; reflexivity).
  - destruct (_ && _); repeat split; reflexivity.
  - destruct (String.eqb _ _); repeat split; reflexivity.
Qed.

(** Saving never touches the videos of the recording. *)
Lemma written_keeps (tr : list event) :
  forall fs,
    rec_dir (written tr fs) = rec_dir fs /\
    path_exists (written tr fs) = path_exists fs /\
    videoset_is_empty (written tr fs) = videoset_is_empty fs /\
    n_valid_frames (written tr fs) = n_valid_frames fs.
Proof.
  induction tr as [|e r IH]; intros fs; [repeat split; reflexivity|].
  cbn [written fold_left]. fold (written r (write_event fs e)).
  destruct (IH (write_event fs e)) as (-> & -> & -> & ->).
  apply write_event_keeps.
Qed.

Lemma written_saved (fs fs0 : recording) (s : orchestrator) :
  rec_dir fs0 = rec_dir fs ->
  meta_file (written (saved fs s) fs0) =
    Some {| meta_version := Some session_data_version;
            meta_detection_method := Some (detection_method s);
            meta_detection_status := Some (detection_status s) |} /\
  store_file (written (saved fs s) fs0) = _pupil_data_store s.
Proof.
  intros Hdir.
  assert (Hd : data_dir fs0 = data_dir fs) by (unfold data_dir; now rewrite Hdir).
  unfold written, saved. cbn [fold_left write_event].
  rewrite Hd, String.eqb_refl.
  change (String.eqb "offline_pupil" session_data_name) with true.
  cbn [andb].
  change (path_join (data_dir fs) "offline_pupil.meta") with (meta_path fs).
  match goal with
  | |- context [meta_path ?r] =>
      lazymatch r with
      | fs => fail
      | _ => replace (meta_path r) with (meta_path fs)
               by (unfold meta_path, data_dir; cbn [rec_dir]; now rewrite Hdir)
      end
  end.
  rewrite String.eqb_refl. split; reflexivity.
Qed.

(** X16. What [save_offline_data] writes is what the next construction loads:
    the metadata goes to the path that [__init__] reads, carries the
    current version, and so is taken as it is, with the status list and the
    store of the moment of saving, whatever had been saved before. *)
Theorem save_offline_data_is_loaded (fs : recording) (s s0 : orchestrator) :
  exists s1,
    save_offline_data fs s = (Ok tt, s1) /\
    store_file (written (trace s1) fs) = _pupil_data_store s /\
    load_session_meta_data (written (trace s1) fs) s0 =
      (Ok {| meta_version := Some session_data_version;
             meta_detection_method := Some (detection_method s);
             meta_detection_status := Some (detection_status s) |}, s0) /\
    loaded_status (written (trace s1) fs) = Some (detection_status s).
Proof.
  exists (set_trace (trace s ++ saved fs s) s). split.
  - destruct s as [pp sub dm ds st evl efn dp dff vs ind tr].
    unfold save_offline_data. unfold_methods. cbn. rewrite <- app_assoc.
    reflexivity.
  - replace (trace (set_trace (trace s ++ saved fs s) s))
      with (trace s ++ saved fs s)%list by (destruct s; reflexivity).
    rewrite written_app.
    destruct (written_saved fs (written (trace s) fs) s) as [Hm Hs];
      [apply written_keeps|].
    split; [exact Hs|].
    unfold loaded_status, load_session_meta_data, try_except, bind, or_raise,
      assert, ret.
    rewrite Hm. cbn. split; reflexivity.
Qed.

Lemma found_video_written (tr : list event) (fs : recording) (eye_id : Z) :
  found_video (written tr fs) eye_id = found_video fs eye_id.
Proof.
  destruct (written_keeps tr fs) as (Hd & Hp & Hv & _).
  unfold found_video, existing_locs, potential_locs, candidate.
  now rewrite Hd, Hp, Hv.
Qed.

(** X17. A session that is torn down and constructed again carries on: the
    new plugin loads the store and the status list that [cleanup] saved,
    leaves the eyes that were "complete" alone, and requests a start only
    for the other eyes that have a video; if both were complete it
    publishes the saved results at once. *)
Theorem session_resumes (fs : recording) (s : orchestrator) (a b : string) :
  List.length (eye_video_loc s) = 2%nat ->
  detection_status s = [a; b] ->
  exists s1 s',
    cleanup fs s = (Ok tt, s1) /\
    init (written (trace s1) fs) blank = (Ok tt, s') /\
    _pupil_data_store s' = _pupil_data_store s /\
    detection_status s' = [started_status fs a 0; started_status fs b 1] /\
    filter is_notify (trace s') = (start_request fs a 0 ++ start_request fs b 1)%list /\
    (a = "complete" -> b = "complete" ->
     pupil_positions s' = Some (_pupil_data_store s)).
Proof.
  intros Hlen Hds.
  assert (Hclean : exists s1, cleanup fs s = (Ok tt, s1) /\
                     exists tr, trace s1 = (tr ++ saved fs s)%list).
  { destruct s as [pp sub dm ds st evl efn dp dff vs ind tr].
    simpl in Hlen. two_elements evl Hlen.
    unfold cleanup. unfold_methods. cbn.
    eexists; split; [reflexivity|]. cbn.
    exists (tr ++ [Notify (eye_process_should_stop 0);
                   Notify (eye_process_should_stop 1); CloseDataSub])%list.
    now rewrite <- !app_assoc. }
  destruct Hclean as (s1 & Hrun & tr & Htr). exists s1.
  set (fs' := written (trace s1) fs).
  assert (Hfs : store_file fs' = _pupil_data_store s /\
                loaded_status fs' = Some [a; b]).
  { unfold fs'. rewrite Htr, written_app.
    destruct (written_saved fs (written tr fs) s) as [Hm Hs];
      [apply written_keeps|].
    split; [exact Hs|]. unfold loaded_status. rewrite Hm. cbn. now rewrite Hds. }
  destruct Hfs as [Hstore Hloaded].
  destruct (init_by_eye fs' a b Hloaded)
    as (s0 & s' & _ & Htr0 & Hds0 & Hloc0 & _ & _ & Hinit & Htr' & Hds' & _
        & Hst' & Hpp' & _).
  assert (Hfv : forall e, found_video fs' e = found_video fs e)
    by (intros e; apply found_video_written).
  assert (Hreq : forall x e, start_request fs' x e = start_request fs x e)
    by (intros x e; unfold start_request; now rewrite Hfv).
  assert (Hsta : forall x e, started_status fs' x e = started_status fs x e)
    by (intros x e; unfold started_status; now rewrite Hfv).
  exists s'. split; [exact Hrun|]. split; [exact Hinit|].
  split; [congruence|]. split; [rewrite Hds', Hds0, !Hsta; reflexivity|].
  split.
  - rewrite Htr', Htr0, !Hreq, filter_app.
    assert (Hn : forall x e, filter is_notify (start_request fs x e)
                             = start_request fs x e).
    { intros x e. unfold start_request.
      destruct (String.eqb x "complete"); [reflexivity|].
      destruct (found_video fs e); reflexivity. }
    rewrite filter_app, !Hn.
    destruct (locs_eqb (eye_video_loc s0) [None; None]); cbn;
      now rewrite app_nil_r.
  - intros -> ->. rewrite Hpp', Hloc0. cbn. now rewrite Hstore.
Qed.

Lemma session_resumes_witness :
  exists s1 s',
    cleanup Sample.fs_both Sample.s_finished = (Ok tt, s1) /\
    init (written (trace s1) Sample.fs_both) blank = (Ok tt, s') /\
    _pupil_data_store s' = _pupil_data_store Sample.s_finished /\
    detection_status s' = [started_status Sample.fs_both "complete" 0;
                           started_status Sample.fs_both "complete" 1] /\
    filter is_notify (trace s') =
      (start_request Sample.fs_both "complete" 0
       ++ start_request Sample.fs_both "complete" 1)%list /\
    ("complete" = "complete" -> "complete" = "complete" ->
     pupil_positions s' = Some (_pupil_data_store Sample.s_finished)).
Proof.
  apply (session_resumes Sample.fs_both Sample.s_finished "complete" "complete");
    reflexivity.
Defined.

(* ------------------------------------------------------------------ *)
(** ** Metadata that construction does not survive *)

(** X18. Metadata of the current version is taken as it is, so what it lacks
    is not defaulted: without a "detection_status" construction raises
    [KeyError]; with a status list of no entry it raises [IndexError] on
    the first eye; with a status list of one entry it raises [IndexError]
    on the second eye, after the first has been handled.  Nothing is
    published in any of these cases. *)
Theorem init_rejects_short_metadata (fs : recording) (m : session_meta) :
  meta_file fs = Some m ->
  meta_version m = Some session_data_version ->
  (meta_detection_status m = None ->
   fst (init fs blank) = Raise KeyError /\
   trace (snd (init fs blank)) = []) /\
  (meta_detection_status m = Some [] ->
   fst (init fs blank) = Raise IndexError /\
   trace (snd (init fs blank)) = []) /\
  (forall a, meta_detection_status m = Some [a] ->
   fst (init fs blank) = Raise IndexError /\
   trace (snd (init fs blank)) = start_request fs a 0 /\
   pupil_positions (snd (init fs blank)) = None).
Proof.
  intros Hfile Hver.
  unfold init, startup, init_attributes, load_session_meta_data, try_except,
    for_each, assert.
  unfold start_request, found_video.
  unfold_methods. unfold blank.
  rewrite Hfile. destruct m as [v mm l]. cbn in Hver. subst v.
  cbn [meta_version meta_detection_status].
  split; [|split]; [intros -> | intros -> | intros a ->];
    repeat (exec; try case_split); repeat split.
Qed.

Lemma init_rejects_short_metadata_witness :
  let fs := {| rec_dir := "/rec"; path_exists := fun _ => false;
               videoset_is_empty := fun _ => false;
               n_valid_frames := fun _ => 0;
               meta_file := Some {| meta_version := Some 3;
                                    meta_detection_method := Some "3d";
                                    meta_detection_status := None |};
               store_file := [] |} in
  fst (init fs blank) = Raise KeyError /\ trace (snd (init fs blank)) = [].
Proof.
  intros fs.
  apply (init_rejects_short_metadata fs
           {| meta_version := Some 3; meta_detection_method := Some "3d";
              meta_detection_status := None |}); reflexivity.
Defined.

(* ------------------------------------------------------------------ *)
(** ** The progress of a session that has nothing to detect *)

Lemma startup_idle_frames (fs : recording) (s1 : orchestrator) :
  startup fs blank = (Ok tt, s1) ->
  eye_video_loc s1 = [None; None] ->
  eye_frame_num s1 = [len (select (Some 0) "3d" (store_file fs));
                      len (select (Some 1) "3d" (store_file fs))] /\
  detection_method s1 = "3d" /\
  _pupil_data_store s1 = store_file fs.
Proof.
  unfold startup, init_attributes, load_session_meta_data, try_except, for_each, assert.
  unfold_methods. unfold blank.
  destruct (meta_file fs) as [[v m [[|a [|b r]]|]]|];
    repeat (exec; try case_split);
    intros Hrun Hloc; try discriminate Hrun; injection Hrun as <-;
    try discriminate Hloc; repeat split.
Qed.

(** The records of eye 0 and of eye 1 are among the records of all eyes. *)
Lemma select_both_eyes (tag : string) (st : store) :
  len (select (Some 0) tag st) + len (select (Some 1) tag st)
  <= len (select None tag st).
Proof.
  unfold len, select.
  induction st as [|x r IH]; [cbn; lia|].
  cbn [filter has_key].
  destruct (String.eqb (datum_tag (e_datum x)) tag);
    rewrite ?andb_true_r, ?andb_false_r.
  - destruct (datum_id (e_datum x) =? 0) eqn:E0;
      destruct (datum_id (e_datum x) =? 1) eqn:E1; cbn [List.length]; lia.
  - exact IH.
Qed.

(** X19. When construction starts no eye process, the expected frame counts
    are the numbers of "3d" results on disk for eye 0 and for eye 1; the
    progress is then 0 if there is no such result and 1 otherwise. *)
Theorem idle_session_progress (fs : recording) (s1 : orchestrator) :
  startup fs blank = (Ok tt, s1) ->
  eye_video_loc s1 = [None; None] ->
  let n := len (select (Some 0) "3d" (store_file fs))
           + len (select (Some 1) "3d" (store_file fs)) in
  sum (eye_frame_num s1) = n /\
  (n = 0 -> detection_progress s1 = 0%Q) /\
  (n <> 0 -> (detection_progress s1 == 1)%Q).
Proof.
  intros Hrun Hloc n.
  destruct (startup_idle_frames fs s1 Hrun Hloc) as (Hefn & Hdm & Hst).
  assert (Hsum : sum (eye_frame_num s1) = n)
    by (rewrite Hefn; unfold sum; cbn [fold_left]; subst n; lia).
  split; [exact Hsum|].
  unfold detection_progress. rewrite Hsum, Hdm, Hst. split.
  - intros ->. reflexivity.
  - intros Hn. assert (Hb : (n =? 0) = false) by (now apply Z.eqb_neq).
    rewrite Hb. cbn [negb].
    assert (Hpos : 0 < n).
    { pose proof (len_nonneg (select (Some 0) "3d" (store_file fs))).
      pose proof (len_nonneg (select (Some 1) "3d" (store_file fs))).
      subst n. clear - Hn H H0.
      set (x := len (select (Some 0) "3d" (store_file fs))) in *.
      set (y := len (select (Some 1) "3d" (store_file fs))) in *.
      lia. }
    assert (Hge : (1 <= inject_Z (len (select None "3d" (store_file fs)))
                        / inject_Z n)%Q).
    { setoid_replace 1%Q with (inject_Z n / inject_Z n)%Q.
      - apply ratio_monotone; [apply select_both_eyes | exact Hpos].
      - unfold Qdiv. rewrite Qmult_inv_r; [reflexivity|].
        intros H0. unfold Qeq in H0. cbn [Qnum Qden inject_Z] in H0. lia. }
    unfold min_1.
    destruct (Qle_bool _ 1) eqn:E; [|reflexivity].
    apply Qle_bool_iff in E. now apply Qle_antisym.
Qed.

Lemma idle_session_progress_witness :
  let s1 := snd (startup Sample.fs_done blank) in
  let n := len (select (Some 0) "3d" (store_file Sample.fs_done))
           + len (select (Some 1) "3d" (store_file Sample.fs_done)) in
  sum (eye_frame_num s1) = n /\
  (n = 0 -> detection_progress s1 = 0%Q) /\
  (n <> 0 -> (detection_progress s1 == 1)%Q).
Proof.
  apply (idle_session_progress Sample.fs_done
           (snd (startup Sample.fs_done blank))); reflexivity.
Defined.

(* ------------------------------------------------------------------ *)
(** ** Draining in batches *)

Lemma for_each_app {A} (xs ys : list A) (body : A -> M unit) (s : orchestrator) :
  for_each (xs ++ ys) body s =
    match for_each xs body s with
    | (Ok _, s1) => for_each ys body s1
    | (Raise e, s1) => (Raise e, s1)
    end.
Proof.
  revert s. induction xs as [|x r IH]; intros s; cbn [for_each app].
  - reflexivity.
  - unfold bind. destruct (body x s) as [[[]|e] s1]; [apply IH | reflexivity].
Qed.

(** The indicator is write-only for the handling of a message. *)
Lemma handle_message_indicator (fs : recording) (m : message) (q : Q)
    (s : orchestrator) :
  handle_message fs m (set_indicator_stop q s) =
    (fst (handle_message fs m s),
     set_indicator_stop q (snd (handle_message fs m s))).
Proof.
  destruct s as [pp sub dm ds st evl efn dp dff vs ind tr].
  unfold handle_message, mark_finished, assert. unfold_methods.
  grind; reflexivity.
Qed.

Lemma for_each_indicator (fs : recording) (pending : list message) (q : Q) :
  forall s,
    for_each pending (handle_message fs) (set_indicator_stop q s) =
      (fst (for_each pending (handle_message fs) s),
       set_indicator_stop q (snd (for_each pending (handle_message fs) s))).
Proof.
  induction pending as [|m rest IH]; intros s; cbn [for_each].
  - reflexivity.
  - unfold bind. rewrite handle_message_indicator.
    destruct (handle_message fs m s) as [[[]|e] s1]; cbn [fst snd];
      [apply IH | reflexivity].
Qed.

(** X20. Messages drained in two calls leave the plugin as the same messages
    drained in one call do. *)
Theorem recent_events_in_batches (fs : recording) (first second : list message)
    (s s1 s2 : orchestrator) :
  recent_events fs first s = (Ok tt, s1) ->
  recent_events fs second s1 = (Ok tt, s2) ->
  recent_events fs (first ++ second) s = (Ok tt, s2).
Proof.
  unfold recent_events, bind, gets, modify.
  destruct (data_sub s) eqn:Hsub; cbn; [|discriminate].
  rewrite for_each_app.
  destruct (for_each first (handle_message fs) s) as [[[]|e] sa] eqn:Ha;
    [|discriminate].
  pose proof (for_each_handle_message_frame _ _ _ _ _ Ha) as (_ & _ & Hd & _).
  intros [= <-].
  replace (data_sub (set_indicator_stop (detection_progress sa) sa))
    with (data_sub sa) by (destruct sa; reflexivity).
  rewrite Hd, Hsub. cbn. rewrite for_each_indicator.
  destruct (for_each second (handle_message fs) sa) as [[[]|e] sb];
    cbn [fst snd]; [|discriminate].
  intros [= <-]. f_equal. destruct sb; reflexivity.
Qed.

Lemma recent_events_in_batches_witness :
  recent_events Sample.fs_both
    ([video_finished "/rec/eye1.mp4"] ++ [video_finished "/rec/eye0.mp4"])
    Sample.s_detecting =
    (Ok tt, snd (recent_events Sample.fs_both [video_finished "/rec/eye0.mp4"]
                   (snd (recent_events Sample.fs_both
                           [video_finished "/rec/eye1.mp4"] Sample.s_detecting)))).
Proof.
  apply (recent_events_in_batches Sample.fs_both
           [video_finished "/rec/eye1.mp4"] [video_finished "/rec/eye0.mp4"]
           Sample.s_detecting
           (snd (recent_events Sample.fs_both
                   [video_finished "/rec/eye1.mp4"] Sample.s_detecting)));
    reflexivity.
Defined.

(* ------------------------------------------------------------------ *)
(** ** Edges of [on_notify] and of the forced method *)

(** X21. An [eye_process.stopped] notification without an "eye_id" raises
    [KeyError], and one whose "eye_id" is outside [-2 .. 1] raises
    [IndexError]; the plugin is unchanged in both cases. *)
Theorem on_notify_stopped_bad_eye_id (fs : recording) (n : notification_in)
    (s : orchestrator) :
  List.length (eye_video_loc s) = 2%nat ->
  subject n = "eye_process.stopped" ->
  (n_eye_id n = None -> on_notify fs n s = (Raise KeyError, s)) /\
  (forall e, n_eye_id n = Some e -> e < -2 \/ 1 < e ->
     on_notify fs n s = (Raise IndexError, s)).
Proof.
  intros Hlen Hsub. unfold on_notify. rewrite Hsub.
  change (String.eqb "eye_process.stopped" "eye_process.started") with false.
  change (String.eqb "eye_process.stopped" "eye_process.stopped") with true.
  cbn iota. unfold assign_item, bind, gets, or_raise, ret, raise, modify.
  split.
  - intros ->. reflexivity.
  - intros e -> He. unfold setitem, index. rewrite Hlen.
    replace ((0 <=? e) && (e <? Z.of_nat 2)) with false
      by (symmetry; apply andb_false_iff;
          destruct He; [left; apply Z.leb_gt | right; apply Z.ltb_ge]; lia).
    replace ((- Z.of_nat 2 <=? e) && (e <? 0)) with false
      by (symmetry; apply andb_false_iff;
          destruct He; [left; apply Z.leb_gt | right; apply Z.ltb_ge]; lia).
    reflexivity.
Qed.

Lemma on_notify_stopped_bad_eye_id_witness :
  on_notify Sample.fs_both (eye_process_stopped 2) Sample.s_detecting =
    (Raise IndexError, Sample.s_detecting).
Proof.
  destruct (on_notify_stopped_bad_eye_id Sample.fs_both (eye_process_stopped 2)
              Sample.s_detecting eq_refl eq_refl) as [_ H].
  apply (H 2); [reflexivity | right; reflexivity].
Defined.

(** X22. Whatever the metadata says, a constructed plugin detects with "3d"
    and holds its subscription: the persisted "detection_method" is never
    read back. *)
Theorem init_forces_3d (fs : recording) (s : orchestrator) :
  init fs blank = (Ok tt, s) ->
  detection_method s = "3d" /\ data_sub s = true.
Proof.
  unfold init, startup, init_attributes, load_session_meta_data, try_except,
    for_each, assert.
  unfold_methods. unfold blank.
  destruct (meta_file fs) as [[v m [[|a [|b r]]|]]|];
    repeat (exec; try case_split);
    intros Hrun; try discriminate Hrun; injection Hrun as <-;
    split; reflexivity.
Qed.

Lemma init_forces_3d_witness :
  let fs := {| rec_dir := "/rec"; path_exists := fun _ => false;
               videoset_is_empty := fun _ => false;
               n_valid_frames := fun _ => 0;
               meta_file := Some {| meta_version := Some 3;
                                    meta_detection_method := Some "2d";
                                    meta_detection_status :=
                                      Some ["complete"; "complete"] |};
               store_file := [] |} in
  detection_method (snd (init fs blank)) = "3d" /\
  data_sub (snd (init fs blank)) = true.
Proof.
  intros fs. apply (init_forces_3d fs (snd (init fs blank))). reflexivity.
Defined.
